(** * SpendingAnalyzer: column detection, merge and categorisation

    A shallow embedding of [spending_analyzer.py].  The class
    [SpendingAnalyzer] keeps one mutable attribute, [self.data]; its methods
    are embedded as functions that take the analyzer state and return the
    new one.  The pandas, numpy and [str] primitives the methods call are
    either written out (substring test, duplicate removal, grouping) or,
    where the library's behaviour is far larger than the program (date and
    number parsing, lower-casing, the default unstable sort), taken as
    parameters together with the part of their documented contract the
    program relies on.  The runs on sample files sort with numpy's own
    algorithm for the default kind, embedded in [Numpy].

    Tables are modelled without missing cells: a text column holds [str]
    values only, so a description is always a [str].  Text is a string of
    characters with codes below 256; text with other characters is outside
    the model (in Python [\d] also matches the decimal digits of other
    scripts, which lie beyond that range).  [Amount] is the numeric scalar
    of the amount column once the
    frames are concatenated (int64 or float64); averages are float64
    ([Floats]).
    [self.categories] is assigned in [__init__] and never again, so it is a
    constant of the model. *)

From Stdlib Require Import ZArith Floats Ascii Sorting.Sorted DecimalString DecimalZ.
From stdpp Require Import base list strings sorting.

Local Open Scope string_scope.

(** ** Python [str] primitives *)

Module Str.

(** [kw in s]: [kw] occurs in [s] as a contiguous substring. *)
Fixpoint contains (kw s : string) : bool :=
  String.prefix kw s ||
  match s with
  | EmptyString => false
  | String _ s' => contains kw s'
  end.

(** [str.lower] on ASCII text: the letters A-Z are mapped to a-z and every
    other character is kept. *)
Definition lower_ascii (c : ascii) : ascii :=
  let n := nat_of_ascii c in
  if (65 <=? n)%nat && (n <=? 90)%nat then ascii_of_nat (n + 32) else c.

Fixpoint lower (s : string) : string :=
  match s with
  | EmptyString => EmptyString
  | String c s' => String (lower_ascii c) (lower s')
  end.

(** [re.sub] of a one-character class by the empty string: the characters
    satisfying [p] are dropped. *)
Fixpoint remove_chars (p : ascii -> bool) (s : string) : string :=
  match s with
  | EmptyString => EmptyString
  | String c s' => if p c then remove_chars p s' else String c (remove_chars p s')
  end.

(** [re.search] of a one-character class: some character satisfies [p]. *)
Fixpoint any_char (p : ascii -> bool) (s : string) : bool :=
  match s with
  | EmptyString => false
  | String c s' => p c || any_char p s'
  end.

(** Every character satisfies [p]: what a full match of the class would
    test.  The program never calls this; it states the reading of the
    amount heuristic that [any_char] is compared with. *)
Fixpoint all_chars (p : ascii -> bool) (s : string) : bool :=
  match s with
  | EmptyString => true
  | String c s' => p c && all_chars p s'
  end.

End Str.

(** ** Exceptions and results *)

Inductive Exception :=
| ReadCsvError          (* pd.read_csv raised: missing or malformed file *)
| ColumnsNotFound       (* ValueError("Could not identify date and amount columns") *)
| ToDatetimeError       (* pd.to_datetime raised *)
| ToNumericError        (* pd.to_numeric raised *)
| KeyError              (* df[col] on an absent label *)
| IndexError            (* .iloc[:, 0] on a frame without columns *)
| TypeError             (* an operation applied to a column of the wrong dtype *)
| NoValidFiles          (* ValueError("No valid files to process") *)
| NoData.               (* ValueError("No data available. Please process files first.") *)

Inductive Result (A : Type) :=
| OK (a : A)
| Raise (e : Exception).

Arguments OK {A} a.
Arguments Raise {A} e.

Definition bind {A B : Type} (r : Result A) (k : A -> Result B) : Result B :=
  match r with
  | OK a => k a
  | Raise e => Raise e
  end.

Notation "'let*' x ':=' r 'in' k" := (bind r (fun x => k))
  (at level 10, x name, r at level 100, k at level 200).

(** A library call that signals failure by [None], with the exception it raises. *)
Definition or_raise {A : Type} (e : Exception) (o : option A) : Result A :=
  match o with
  | Some a => OK a
  | None => Raise e
  end.

(** A call applied to every element of a column; the first failure aborts. *)
Fixpoint map_result {A B : Type} (f : A -> Result B) (l : list A) : Result (list B) :=
  match l with
  | [] => OK []
  | a :: l' => let* b := f a in let* bs := map_result f l' in OK (b :: bs)
  end.

Definition succeeds {A : Type} (r : Result A) : bool :=
  match r with
  | OK _ => true
  | Raise _ => false
  end.

(** ** Category rules ([self.categories], a dict in declaration order) *)

Definition categories : list (string * list string) :=
  [ ("groceries", ["grocery"; "food"; "market"; "trader"; "whole foods"]);
    ("dining", ["restaurant"; "cafe"; "coffee"; "doordash"; "uber eats"]);
    ("transport", ["uber"; "lyft"; "taxi"; "transit"; "gas"; "fuel"]);
    ("shopping", ["amazon"; "target"; "walmart"; "store"]);
    ("utilities", ["electric"; "water"; "gas"; "internet"; "phone"]);
    ("entertainment", ["netflix"; "spotify"; "movie"; "theater"]);
    ("health", ["pharmacy"; "doctor"; "medical"; "fitness"]) ].

Section Categorize.

(** [description.lower()]. *)
Variable str_lower : string -> string.

(** [any(keyword in description for keyword in keywords)]. *)
Definition any_keyword (keywords : list string) (description : string) : bool :=
  existsb (fun keyword => Str.contains keyword description) keywords.

(** The loop over [self.categories.items()]. *)
Fixpoint first_category (items : list (string * list string)) (description : string) : string :=
  match items with
  | [] => "other"
  | (category, keywords) :: rest =>
      if any_keyword keywords description then category
      else first_category rest description
  end.

Definition categorize_transaction (description : string) : string :=
  let description := str_lower description in
  first_category categories description.

End Categorize.

(** ** Raw tables *)

Inductive Dtype := float64 | int64 | bool_ | object | datetime64.

Definition dtype_eqb (a b : Dtype) : bool :=
  match a, b with
  | float64, float64 | int64, int64 | bool_, bool_
  | object, object | datetime64, datetime64 => true
  | _, _ => false
  end.

(** A [datetime64[ns]] value: nanoseconds since the epoch. *)
Definition Timestamp := Z.

(** A column with its dtype.  [Amount] is the numeric scalar of the
    numeric columns. *)
Inductive Series (Amount : Type) :=
| Float64 (vs : list Amount)
| Int64 (vs : list Amount)
| Bool (vs : list bool)
| Object (vs : list string)
| Datetime64 (vs : list Timestamp).

Arguments Float64 {Amount} vs.
Arguments Int64 {Amount} vs.
Arguments Bool {Amount} vs.
Arguments Object {Amount} vs.
Arguments Datetime64 {Amount} vs.

Definition dtype {Amount : Type} (s : Series Amount) : Dtype :=
  match s with
  | Float64 _ => float64
  | Int64 _ => int64
  | Bool _ => bool_
  | Object _ => object
  | Datetime64 _ => datetime64
  end.

(** [df.columns] with [df[col]]: the labelled columns, left to right. *)
Definition DataFrame (Amount : Type) := list (string * Series Amount).

(** The pandas conversions [read_csv] applies to single values. *)
Class Pandas (Amount : Type) := {
  (** [pd.to_datetime] on a text value; [None] when it raises. *)
  parse_datetime : string -> option Timestamp;
  (** [pd.to_datetime] on a number. *)
  epoch_datetime : Amount -> option Timestamp;
  (** [pd.to_numeric] on a text value; [None] when it raises. *)
  parse_numeric : string -> option Amount;
  (** [astype(str)] on a number and on a timestamp. *)
  repr_numeric : Amount -> string;
  repr_datetime : Timestamp -> string;
  (** [pd.read_csv(filepath)]: the table stored under a path; [None] when
      it raises. *)
  pd_read_csv : string -> option (DataFrame Amount)
}.

(** One row of the standardized frame: the columns date, description, amount. *)
Record Row (Amount : Type) := mkRow {
  date : Timestamp;
  description : string;
  amount : Amount
}.

Arguments mkRow {Amount} date description amount.
Arguments date {Amount} r.
Arguments description {Amount} r.
Arguments amount {Amount} r.

(** ** [read_csv] *)

Section ReadCsv.

Context {Amount : Type} {pd : Pandas Amount}.

(** [pd.to_datetime(series)]. *)
Definition to_datetime (s : Series Amount) : Result (list Timestamp) :=
  match s with
  | Object vs => map_result (fun v => or_raise ToDatetimeError (parse_datetime v)) vs
  | Float64 vs | Int64 vs =>
      map_result (fun v => or_raise ToDatetimeError (epoch_datetime v)) vs
  | Datetime64 vs => OK vs
  | Bool _ => Raise TypeError
  end.

(** The first loop: the first text column that [pd.to_datetime] accepts. *)
Fixpoint find_date_col (columns : DataFrame Amount) : option string :=
  match columns with
  | [] => None
  | (col, s) :: rest =>
      if dtype_eqb (dtype s) object then
        match to_datetime s with
        | OK _ => Some col
        | Raise _ => find_date_col rest
        end
      else find_date_col rest
  end.

(** The character class [[\d\.\-\$]] on ASCII text, where [\d] is 0-9. *)
Definition amount_class (c : ascii) : bool :=
  let n := nat_of_ascii c in
  ((48 <=? n)%nat && (n <=? 57)%nat) || Ascii.eqb c "." || Ascii.eqb c "-" || Ascii.eqb c "$".

(** [series.str.contains(r'[\d\.\-\$]').all()]: the pattern is searched, so
    a value passes as soon as one of its characters is in the class. *)
Definition str_contains_all (vs : list string) : bool :=
  forallb (Str.any_char amount_class) vs.

Definition is_amount_col (s : Series Amount) : bool :=
  match s with
  | Float64 _ | Int64 _ => true
  | Object vs => str_contains_all vs
  | _ => false
  end.

(** The second loop: the first numeric column, or text column passing the
    pattern test. *)
Fixpoint find_amount_col (columns : DataFrame Amount) : option string :=
  match columns with
  | [] => None
  | (col, s) :: rest => if is_amount_col s then Some col else find_amount_col rest
  end.

(** [not col] for a column label or [None]. *)
Definition not_col (col : option string) : bool :=
  match col with
  | None => true
  | Some name => bool_decide (name = "")
  end.

(** [df[col]]. *)
Fixpoint getitem (df : DataFrame Amount) (col : string) : Result (Series Amount) :=
  match df with
  | [] => Raise KeyError
  | (name, s) :: rest => if bool_decide (name = col) then OK s else getitem rest col
  end.

(** [df.select_dtypes(include=['object']).iloc[:, 0]]. *)
Fixpoint first_object_col (df : DataFrame Amount) : Result (list string) :=
  match df with
  | [] => Raise IndexError
  | (_, Object vs) :: _ => OK vs
  | _ :: rest => first_object_col rest
  end.

(** [series.astype(str)]. *)
Definition astype_str (s : Series Amount) : list string :=
  match s with
  | Float64 vs | Int64 vs => map repr_numeric vs
  | Bool vs => map (fun b : bool => if b then "True" else "False") vs
  | Object vs => vs
  | Datetime64 vs => map repr_datetime vs
  end.

(** [.str.replace('[\$,]', '', regex=True)] on one value. *)
Definition strip_currency (v : string) : string :=
  Str.remove_chars (fun c => Ascii.eqb c "$" || Ascii.eqb c ",") v.

(** [pd.to_numeric(series)]. *)
Definition to_numeric (vs : list string) : Result (list Amount) :=
  map_result (fun v => or_raise ToNumericError (parse_numeric v)) vs.

(** [pd.DataFrame({'date': .., 'description': .., 'amount': ..})]: the three
    columns share the index of [df], so they are combined row by row. *)
Fixpoint standard_frame (dates : list Timestamp) (descriptions : list string)
    (amounts : list Amount) : list (Row Amount) :=
  match dates, descriptions, amounts with
  | d :: dates', s :: descriptions', a :: amounts' =>
      mkRow d s a :: standard_frame dates' descriptions' amounts'
  | _, _, _ => []
  end.

(** The two column scans of [read_csv]. *)
Definition detect_columns (df : DataFrame Amount) : option string * option string :=
  (find_date_col df, find_amount_col df).

(** [read_csv] on a loaded table: the scans, the check, the standardized frame. *)
Definition standardize (df : DataFrame Amount) : Result (list (Row Amount)) :=
  let '(date_col, amount_col) := detect_columns df in
  if not_col date_col || not_col amount_col then Raise ColumnsNotFound
  else
    let* dates := (let* s := getitem df (default "" date_col) in to_datetime s) in
    let* descriptions := first_object_col df in
    let* amounts := (let* s := getitem df (default "" amount_col) in
                     to_numeric (map strip_currency (astype_str s))) in
    OK (standard_frame dates descriptions amounts).

Definition read_csv (filepath : string) : Result (list (Row Amount)) :=
  let* df := or_raise ReadCsvError (pd_read_csv filepath) in
  standardize df.

End ReadCsv.

(** ** The stored table *)

(** One row of [self.data]: the standardized columns and [category]. *)
Record Transaction (Amount : Type) := mkTransaction {
  t_date : Timestamp;
  t_description : string;
  t_amount : Amount;
  t_category : string
}.

Arguments mkTransaction {Amount} t_date t_description t_amount t_category.
Arguments t_date {Amount} t.
Arguments t_description {Amount} t.
Arguments t_amount {Amount} t.
Arguments t_category {Amount} t.

(** The (date, description, amount) triple of a stored row. *)
Definition triple {Amount : Type} (t : Transaction Amount) : Row Amount :=
  mkRow (t_date t) (t_description t) (t_amount t).

(** The analyzer's mutable state: [self.data], [None] until a run succeeds. *)
Record Analyzer (Amount : Type) := mkAnalyzer {
  data : option (list (Transaction Amount))
}.

Arguments mkAnalyzer {Amount} data.
Arguments data {Amount} a.

(** [SpendingAnalyzer()]. *)
Definition init {Amount : Type} : Analyzer Amount := mkAnalyzer None.

Definition date_le {Amount : Type} (a b : Row Amount) : Prop := (date a <= date b)%Z.

(** [DataFrame.sort_values('date')] with its default [kind='quicksort'].
    pandas documents that only [mergesort] and [stable] keep the order of
    equal keys, so the default is specified by what it does guarantee: the
    result is the same rows, ascending by date. *)
Class DateSort (Amount : Type) := {
  sort_values : list (Row Amount) -> list (Row Amount);
  sort_values_sorted : forall rows, Sorted date_le (sort_values rows);
  sort_values_perm : forall rows, sort_values rows ≡ₚ rows
}.

(** ** [process_files] *)

Section ProcessFiles.

Context {Amount : Type} {eq_dec : EqDecision Amount} {pd : Pandas Amount}
  {sorter : DateSort Amount}.
Variable str_lower : string -> string.

#[global] Instance Row_eq_dec : EqDecision (Row Amount).
Proof. solve_decision. Defined.

(** [DataFrame.drop_duplicates()]: a row equal to an earlier one is dropped,
    the first occurrence and the order of the rest are kept. *)
Fixpoint drop_duplicates_seen (seen rows : list (Row Amount)) : list (Row Amount) :=
  match rows with
  | [] => []
  | r :: rest =>
      if bool_decide (r ∈ seen) then drop_duplicates_seen seen rest
      else r :: drop_duplicates_seen (r :: seen) rest
  end.

Definition drop_duplicates (rows : list (Row Amount)) : list (Row Amount) :=
  drop_duplicates_seen [] rows.

(** [data['category'] = data['description'].apply(self.categorize_transaction)]. *)
Definition add_category (r : Row Amount) : Transaction Amount :=
  mkTransaction (date r) (description r) (amount r)
    (categorize_transaction str_lower (description r)).

(** The loop over [filepaths]: a frame is appended to [dfs] when [read_csv]
    returns, a line is printed when it raises. *)
Fixpoint read_files (filepaths : list string) (dfs : list (list (Row Amount)))
    (printed : list (string * Exception)) : list (list (Row Amount)) * list (string * Exception) :=
  match filepaths with
  | [] => (dfs, printed)
  | filepath :: rest =>
      match read_csv filepath with
      | OK df => read_files rest (dfs ++ [df]) printed
      | Raise e => read_files rest dfs (printed ++ [(filepath, e)])
      end
  end.

(** What a call leaves behind: the printed lines, the value returned or the
    exception raised, and the analyzer afterwards. *)
Record Outcome (A : Type) := mkOutcome {
  printed : list (string * Exception);
  result : Result A;
  after : Analyzer Amount
}.

Arguments mkOutcome {A} printed result after.
Arguments printed {A} o.
Arguments result {A} o.
Arguments after {A} o.

(** Lines 82-94: concatenate, drop duplicates, sort, categorize.  Every
    description is a [str] here, so [categorize_transaction] returns on
    each row.  (On a file with an empty description cell, which is outside
    these tables, [description.lower()] raises at line 92, after [self.data]
    has been assigned at lines 83-89.) *)
Definition combine (dfs : list (list (Row Amount))) : list (Transaction Amount) :=
  let data := concat dfs in
  let data := drop_duplicates data in
  let data := sort_values data in
  map add_category data.

Definition process_files (self : Analyzer Amount) (filepaths : list string)
    : Outcome (list (Transaction Amount)) :=
  let '(dfs, out) := read_files filepaths [] [] in
  match dfs with
  | [] => mkOutcome out (Raise NoValidFiles) self
  | _ :: _ =>
      let data := combine dfs in
      mkOutcome out (OK data) (mkAnalyzer (Some data))
  end.

End ProcessFiles.

Arguments mkOutcome {Amount A} printed result after.
Arguments printed {Amount A} o.
Arguments result {Amount A} o.
Arguments after {Amount A} o.

(** ** [generate_insights] *)

(** The arithmetic of the amount column's dtype. *)
Class Numeric (Amount : Type) := {
  zero : Amount;
  add : Amount -> Amount -> Amount;
  (** the cast to float64 ([Series.mean] works on float64 values) *)
  to_float : Amount -> float;
  less : Amount -> Amount -> bool
}.

(** A row count as a float64. *)
Definition float_of_nat (n : nat) : float :=
  PrimFloat.of_uint63 (Uint63.of_Z (Z.of_nat n)).

Definition ns_per_day : Z := 86400000000000.

(** [Timestamp.to_period('M')]: the calendar month of a timestamp, counted
    from 1970-01 (the ordinal pandas stores for a monthly period).  The day
    count is turned into a civil year and month in the proleptic Gregorian
    calendar. *)
Definition to_period_M (t : Timestamp) : Z :=
  let z := (t / ns_per_day + 719468)%Z in
  let era := (z / 146097)%Z in
  let doe := (z - era * 146097)%Z in
  let yoe := ((doe - doe / 1460 + doe / 36524 - doe / 146096) / 365)%Z in
  let doy := (doe - (365 * yoe + yoe / 4 - yoe / 100))%Z in
  let mp := ((5 * doy + 2) / 153)%Z in
  let m := (if mp <? 10 then mp + 3 else mp - 9)%Z in
  let y := (yoe + era * 400 + (if m <=? 2 then 1 else 0))%Z in
  ((y - 1970) * 12 + (m - 1))%Z.

Record Insights (Amount : Type) := mkInsights {
  total_spending : Amount;
  avg_monthly_spending : float;
  spending_by_category : list (string * Amount);
  top_merchants : list (string * Amount);
  monthly_trend : list (Z * Amount)
}.

Arguments mkInsights {Amount} _ _ _ _ _.
Arguments total_spending {Amount} i.
Arguments avg_monthly_spending {Amount} i.
Arguments spending_by_category {Amount} i.
Arguments top_merchants {Amount} i.
Arguments monthly_trend {Amount} i.

Section Insights.

Context {Amount : Type} {num : Numeric Amount}.

(** [Series.sum()]: the values added up from [zero], first to last. *)
Definition series_sum (vs : list Amount) : Amount := fold_left add vs zero.

(** The float64 values of a column added up, first to last. *)
Definition float_sum (vs : list Amount) : float :=
  fold_left PrimFloat.add (map to_float vs) 0%float.

(** [Series.mean()]: NaN on an empty column; otherwise the float64 sum of
    the values divided by their number, a float64. *)
Definition series_mean (vs : list Amount) : float :=
  match vs with
  | [] => nan
  | _ :: _ => (float_sum vs / float_of_nat (length vs))%float
  end.

Section GroupBy.

Context {K : Type} `{EqDecision K} (key_lt : K -> K -> bool).

(** One row added to its group's running sum; the groups are kept in
    ascending key order ([groupby] sorts the group keys). *)
Fixpoint group_add (k : K) (v : Amount) (groups : list (K * Amount)) : list (K * Amount) :=
  match groups with
  | [] => [(k, add zero v)]
  | (k', s) :: rest =>
      if bool_decide (k = k') then (k', add s v) :: rest
      else if key_lt k k' then (k, add zero v) :: (k', s) :: rest
      else (k', s) :: group_add k v rest
  end.

(** [data.groupby(key)['amount'].sum()]. *)
Definition groupby_sum (key : Transaction Amount -> K) (data : list (Transaction Amount))
    : list (K * Amount) :=
  fold_left (fun groups t => group_add (key t) (t_amount t) groups) data [].

(** One entry placed behind the entries that are not smaller. *)
Fixpoint insert_desc (x : K * Amount) (l : list (K * Amount)) : list (K * Amount) :=
  match l with
  | [] => [x]
  | y :: l' => if less (snd y) (snd x) then x :: y :: l' else y :: insert_desc x l'
  end.

(** [Series.nlargest(n)]: the [n] largest sums, largest first, the earlier
    entry first among equal sums. *)
Definition nlargest (n : nat) (groups : list (K * Amount)) : list (K * Amount) :=
  take n (fold_left (fun acc x => insert_desc x acc) groups []).

End GroupBy.

Definition generate_insights (self : Analyzer Amount) : Result (Insights Amount) :=
  match data self with
  | None => Raise NoData
  | Some data =>
      let by_month := groupby_sum Z.ltb (fun t => to_period_M (t_date t)) data in
      OK (mkInsights
            (series_sum (map t_amount data))
            (series_mean (map snd by_month))
            (groupby_sum String.ltb t_category data)
            (nlargest 5 (groupby_sum String.ltb t_description data))
            by_month)
  end.

End Insights.

(** ** Vocabulary of the statements *)

(** [kw] occurs in [s]: [s] is [a ++ kw ++ b] for some [a] and [b]. *)
Definition occurs_in (kw s : string) : Prop := exists a b, s = a +:+ kw +:+ b.

(** Some keyword of the list occurs in the text. *)
Definition matches (keywords : list string) (s : string) : Prop :=
  exists keyword, keyword ∈ keywords /\ occurs_in keyword s.

(** No category before position [i] has a keyword in the description. *)
Definition none_before (description : string) (items : list (string * list string))
    (i : nat) : Prop :=
  forall j category keywords,
    (j < i)%nat -> items !! j = Some (category, keywords) -> ~ matches keywords description.

Section ScanVocabulary.

Context {Amount : Type} {pd : Pandas Amount}.

(** A left-to-right scan for the first column passing a test. *)
Fixpoint find_col (test : Series Amount -> bool) (columns : DataFrame Amount) : option string :=
  match columns with
  | [] => None
  | (col, s) :: rest => if test s then Some col else find_col test rest
  end.

(** The test of the date loop: the dtype check and the guarded call. *)
Definition is_date_col (s : Series Amount) : bool :=
  dtype_eqb (dtype s) object && succeeds (to_datetime s).

(** A text value that [pd.to_datetime] parses. *)
Definition parses_as_date (v : string) : Prop := is_Some (parse_datetime v).

(** A text-typed column all of whose values parse as dates. *)
Definition date_like (s : Series Amount) : Prop :=
  exists vs, s = Object vs /\ Forall parses_as_date vs.

(** The amount test as the specification words it: a numeric column, or a
    text column every value of which consists of class characters only. *)
Definition spec_is_amount_col (s : Series Amount) : bool :=
  match s with
  | Float64 _ | Int64 _ => true
  | Object vs => forallb (Str.all_chars amount_class) vs
  | _ => false
  end.

Definition spec_find_amount_col (df : DataFrame Amount) : option string :=
  find_col spec_is_amount_col df.

(** The frames of the paths on which [read_csv] returns, in argument order. *)
Fixpoint successful_frames (filepaths : list string) : list (list (Row Amount)) :=
  match filepaths with
  | [] => []
  | filepath :: rest =>
      match read_csv filepath with
      | OK df => df :: successful_frames rest
      | Raise _ => successful_frames rest
      end
  end.

(** The paths on which [read_csv] raises, each with its exception. *)
Fixpoint failures (filepaths : list string) : list (string * Exception) :=
  match filepaths with
  | [] => []
  | filepath :: rest =>
      match read_csv filepath with
      | OK _ => failures rest
      | Raise e => (filepath, e) :: failures rest
      end
  end.

End ScanVocabulary.

#[global] Instance date_le_dec {Amount : Type} : RelDecision (@date_le Amount).
Proof. intros a b. unfold date_le. apply _. Defined.

#[global] Instance date_le_total {Amount : Type} : Total (@date_le Amount).
Proof. intros a b. unfold date_le. lia. Qed.

#[global] Instance date_le_transitive {Amount : Type} : Transitive (@date_le Amount).
Proof. intros a b c. unfold date_le. lia. Qed.

(** ** The default sort of numpy

    [sort_values('date')] sorts through [numpy.argsort] with
    [kind='quicksort'], which on a datetime64 column is the introsort
    [aquicksort_] of [npysort/quicksort.cpp]: the array [tosort] of row
    positions is rearranged by comparing the keys [v[*p]] of the positions
    it holds.  A range whose ends are more than [SMALL_QUICKSORT] apart is
    partitioned around the median of its first, middle and last key, the
    larger part is pushed on a stack and the smaller one is partitioned
    further; a shorter range is sorted by insertion.  Pointers into
    [tosort] are offsets here, and every loop is given the length of the
    array as fuel, which it never uses up. *)

Module Numpy.

Definition SMALL_QUICKSORT : nat := 16.

(** A range waiting on the stack: [pl], [pr] and the depth left to it. *)
Definition Frame : Type := nat * nat * Z.

Section Argsort.

(** The keys: [v[i]] is the date of row [i]. *)
Variable v : list Z.

(** [v[*p]]. *)
Definition key (tosort : list nat) (p : nat) : Z := v !!! (tosort !!! p).

(** [INTP_SWAP]: the positions stored at [p] and [q] change places. *)
Definition INTP_SWAP (tosort : list nat) (p q : nat) : list nat :=
  <[p := tosort !!! q]> (<[q := tosort !!! p]> tosort).

(** The three conditional swaps that leave the median key at [pm]. *)
Definition median_of_three (tosort : list nat) (pl pm pr : nat) : list nat :=
  let tosort := if (key tosort pm <? key tosort pl)%Z then INTP_SWAP tosort pm pl else tosort in
  let tosort := if (key tosort pr <? key tosort pm)%Z then INTP_SWAP tosort pr pm else tosort in
  if (key tosort pm <? key tosort pl)%Z then INTP_SWAP tosort pm pl else tosort.

(** [do { ++pi; } while (v[*pi] < vp);] *)
Fixpoint scan_up (fuel : nat) (tosort : list nat) (vp : Z) (pi : nat) : nat :=
  match fuel with
  | O => pi
  | S fuel =>
      let pi := S pi in
      if (key tosort pi <? vp)%Z then scan_up fuel tosort vp pi else pi
  end.

(** [do { --pj; } while (vp < v[*pj]);] *)
Fixpoint scan_down (fuel : nat) (tosort : list nat) (vp : Z) (pj : nat) : nat :=
  match fuel with
  | O => pj
  | S fuel =>
      let pj := pred pj in
      if (vp <? key tosort pj)%Z then scan_down fuel tosort vp pj else pj
  end.

(** The partition loop: both scans, then a swap unless they have met.
    A key equal to the pivot stops either scan, so equal keys are swapped
    across the range. *)
Fixpoint partition (fuel : nat) (tosort : list nat) (vp : Z) (pi pj : nat) : list nat * nat :=
  match fuel with
  | O => (tosort, pi)
  | S fuel =>
      let pi := scan_up (length tosort) tosort vp pi in
      let pj := scan_down (length tosort) tosort vp pj in
      if (pj <=? pi)%nat then (tosort, pi)
      else partition fuel (INTP_SWAP tosort pi pj) vp pi pj
  end.

(** [while (pj > pl && vp < v[*pk]) { *pj-- = *pk--; }] *)
Fixpoint shift (fuel : nat) (tosort : list nat) (pl : nat) (vp : Z) (pj : nat) : list nat * nat :=
  match fuel with
  | O => (tosort, pj)
  | S fuel =>
      if (pl <? pj)%nat && (vp <? key tosort (pred pj))%Z
      then shift fuel (<[pj := tosort !!! pred pj]> tosort) pl vp (pred pj)
      else (tosort, pj)
  end.

(** One round of the insertion sort: the position at [pi] is moved left past
    the positions with a greater key, and no further. *)
Definition insert (tosort : list nat) (pl pi : nat) : list nat :=
  let vi := tosort !!! pi in
  let vp := v !!! vi in
  let '(tosort, pj) := shift (length tosort) tosort pl vp pi in
  <[pj := vi]> tosort.

(** [for (pi = pl + 1; pi <= pr; ++pi)]. *)
Definition insertion_sort (tosort : list nat) (pl pr : nat) : list nat :=
  fold_left (fun tosort pi => insert tosort pl pi) (seq (S pl) (pr - pl)) tosort.

(** [while ((pr - pl) > SMALL_QUICKSORT)]: partition, push the larger part,
    go on with the smaller one. *)
Fixpoint split (fuel : nat) (tosort : list nat) (pl pr : nat) (cdepth : Z) (stack : list Frame)
    : list nat * nat * nat * list Frame :=
  match fuel with
  | O => (tosort, pl, pr, stack)
  | S fuel =>
      if (SMALL_QUICKSORT <? pr - pl)%nat then
        let pm := (pl + (pr - pl) / 2)%nat in
        let tosort := median_of_three tosort pl pm pr in
        let vp := key tosort pm in
        let tosort := INTP_SWAP tosort pm (pr - 1) in
        let '(tosort, pi) := partition (length tosort) tosort vp pl (pr - 1) in
        let tosort := INTP_SWAP tosort pi (pr - 1) in
        let cdepth := (cdepth - 1)%Z in
        if (pi - pl <? pr - pi)%nat
        then split fuel tosort pl (pi - 1) cdepth ((S pi, pr, cdepth) :: stack)
        else split fuel tosort (S pi) pr cdepth ((pl, pi - 1, cdepth) :: stack)
      else (tosort, pl, pr, stack)
  end.

(** The outer loop: a range is split and its last part sorted by insertion,
    then the next range is popped.  A popped range whose depth is used up
    is handed to heapsort by numpy; the model stops there with [None]. *)
Fixpoint sort_loop (fuel : nat) (tosort : list nat) (pl pr : nat) (cdepth : Z)
    (stack : list Frame) : option (list nat) :=
  match fuel with
  | O => None
  | S fuel =>
      if (cdepth <? 0)%Z then None
      else
        let '(tosort, pl, pr, stack) := split (length tosort) tosort pl pr cdepth stack in
        let tosort := insertion_sort tosort pl pr in
        match stack with
        | [] => Some tosort
        | (pl, pr, cdepth) :: stack => sort_loop fuel tosort pl pr cdepth stack
        end
  end.

(** [aquicksort_(v, tosort, num)] on [tosort = 0, 1, ..., num - 1]; the
    depth allowed is twice the position of the highest bit of [num]. *)
Definition aquicksort : option (list nat) :=
  let num := length v in
  sort_loop (S num) (seq 0 num) 0 (num - 1) (2 * Z.log2 (Z.of_nat num)) [].

End Argsort.

(** [data.take(indexer)]: the rows at the positions of the indexer. *)
Definition take_rows {A : Type} (rows : list A) (indexer : list nat) : list A :=
  omap (fun i => rows !! i) indexer.

End Numpy.

(** ** Sample library instances

    Small executable stand-ins for the library parameters, used to run the
    model on concrete files: whole-number amounts and ISO [YYYY-MM-DD]
    dates, which pandas accepts as well. *)

Module Sample.

Definition digit (c : ascii) : option Z :=
  let n := nat_of_ascii c in
  if (48 <=? n)%nat && (n <=? 57)%nat then Some (Z.of_nat n - 48)%Z else None.

Definition days_from_civil (y m d : Z) : Z :=
  let y := (if m <=? 2 then y - 1 else y)%Z in
  let era := (y / 400)%Z in
  let yoe := (y - era * 400)%Z in
  let mp := ((m + 9) mod 12)%Z in
  let doy := ((153 * mp + 2) / 5 + d - 1)%Z in
  let doe := (yoe * 365 + yoe / 4 - yoe / 100 + doy)%Z in
  (era * 146097 + doe - 719468)%Z.

(** The timestamp of an ISO date [YYYY-MM-DD]; anything else is rejected. *)
Definition iso_date (s : string) : option Timestamp :=
  match String.list_ascii_of_string s with
  | [y1; y2; y3; y4; "-"%char; m1; m2; "-"%char; d1; d2] =>
      y1 ← digit y1; y2 ← digit y2; y3 ← digit y3; y4 ← digit y4;
      m1 ← digit m1; m2 ← digit m2; d1 ← digit d1; d2 ← digit d2;
      let y := (1000 * y1 + 100 * y2 + 10 * y3 + y4)%Z in
      let m := (10 * m1 + m2)%Z in
      let d := (10 * d1 + d2)%Z in
      if bool_decide (1 <= m <= 12 ∧ 1 <= d <= 31)%Z
      then Some (days_from_civil y m d * ns_per_day)%Z
      else None
  | _ => None
  end.

(** A decimal integer, as [pd.to_numeric] reads it. *)
Definition int_numeric (s : string) : option Z :=
  Z.of_int <$> NilZero.int_of_string s.

Definition int_repr (z : Z) : string := NilZero.string_of_int (Z.to_int z).

(** The file system: the tables [pd.read_csv] finds under each path. *)
Fixpoint lookup_file (files : list (string * DataFrame Z)) (path : string)
    : option (DataFrame Z) :=
  match files with
  | [] => None
  | (p, df) :: rest => if bool_decide (p = path) then Some df else lookup_file rest path
  end.

Definition pandas (files : list (string * DataFrame Z)) : Pandas Z := {|
  parse_datetime := iso_date;
  epoch_datetime := Some;
  parse_numeric := int_numeric;
  repr_numeric := int_repr;
  repr_datetime := int_repr;
  pd_read_csv := lookup_file files
|}.

(** The rows in the order numpy's default sort leaves them in.  The
    indexer of a run arranges the rows in ascending order of date; the
    arrangement is checked, so that the function meets the contract of
    [DateSort] on every table, and where no such indexer is at hand (the
    model has left the run to heapsort) a merge sort stands in. *)
Definition sort_by_date {Amount : Type} `{EqDecision Amount} (rows : list (Row Amount))
    : list (Row Amount) :=
  match Numpy.aquicksort (map date rows) with
  | Some indexer =>
      let sorted := Numpy.take_rows rows indexer in
      if decide (Sorted date_le sorted /\ sorted ≡ₚ rows) then sorted
      else merge_sort date_le rows
  | None => merge_sort date_le rows
  end.

(** [sort_values('date')] with the default [kind='quicksort']. *)
Definition numpy_quicksort {Amount : Type} `{EqDecision Amount} : DateSort Amount.
Proof.
  refine {| sort_values := sort_by_date |}; intros rows; unfold sort_by_date;
    destruct (Numpy.aquicksort (map date rows)) as [indexer|];
    try destruct (decide _) as [[Hsorted Hperm]|_]; try assumption;
    first [apply (Sorted_merge_sort date_le) | apply (merge_sort_Permutation date_le)].
Defined.

(** The int64 to float64 cast. *)
Definition float_of_Z (z : Z) : float :=
  if (z =? - 2 ^ 63)%Z then (-0x1p63)%float
  else if (z <? 0)%Z then (- PrimFloat.of_uint63 (Uint63.of_Z (- z)))%float
  else PrimFloat.of_uint63 (Uint63.of_Z z).

Definition Z_numeric : Numeric Z := {|
  zero := 0%Z;
  add := Z.add;
  to_float := float_of_Z;
  less := Z.ltb
|}.

(** binary64 amounts. *)
Definition float_numeric : Numeric float := {|
  zero := 0%float;
  add := PrimFloat.add;
  to_float := fun x => x;
  less := PrimFloat.ltb
|}.

Definition bank1 : DataFrame Z :=
  [ ("Description", Object ["Trader Joes"; "Shell Gas"]);
    ("Amount", Int64 [45; 30]%Z);
    ("Date", Object ["2024-01-05"; "2024-01-10"]) ].

Definition bank2 : DataFrame Z :=
  [ ("Description", Object ["Trader Joes"; "Netflix"]);
    ("Amount", Int64 [45; 16]%Z);
    ("Date", Object ["2024-01-05"; "2024-02-01"]) ].

(** The same rows as [bank1] with the date column first. *)
Definition bank3 : DataFrame Z :=
  [ ("Date", Object ["2024-01-05"; "2024-01-10"]);
    ("Description", Object ["Trader Joes"; "Shell Gas"]);
    ("Amount", Int64 [45; 30]%Z) ].

(** Descriptions that all hold a digit. *)
Definition receipts : DataFrame Z :=
  [ ("Description", Object ["Whole Foods Market #123"; "Shell Gas 24"]);
    ("Amount", Int64 [45; 30]%Z);
    ("Date", Object ["2024-01-05"; "2024-01-10"]) ].

(** A file with a header line and no rows: [pd.read_csv] types every
    column as text. *)
Definition header_only : DataFrame Z :=
  [ ("Date", Object []); ("Description", Object []); ("Amount", Object []) ].

(** Two rides on the same day. *)
Definition rides : DataFrame Z :=
  [ ("Description", Object ["Uber"; "Lyft"]);
    ("Amount", Int64 [20; 15]%Z);
    ("Date", Object ["2024-01-05"; "2024-01-05"]) ].

(** A statement of twenty purchases in date order; the ninth and the tenth,
    the two rides, are of the same day. *)
Definition january : DataFrame Z :=
  [ ("Description",
     Object ["Trader Joes"; "Shell Gas"; "Netflix"; "Starbucks Coffee"; "Amazon";
             "Whole Foods Market"; "Spotify"; "City Pharmacy"; "Uber"; "Lyft";
             "Target"; "Electric Company"; "Doordash"; "Walmart"; "Movie Theater";
             "City Transit"; "Water Works"; "Corner Cafe"; "Fitness Club";
             "Book Store"]);
    ("Amount",
     Int64 [45; 30; 16; 6; 25; 62; 10; 18; 20; 15; 40; 80; 22; 35; 14; 3; 27; 9; 50; 12]%Z);
    ("Date",
     Object ["2024-01-02"; "2024-01-03"; "2024-01-04"; "2024-01-05"; "2024-01-06";
             "2024-01-08"; "2024-01-09"; "2024-01-10"; "2024-01-12"; "2024-01-12";
             "2024-01-13"; "2024-01-15"; "2024-01-16"; "2024-01-17"; "2024-01-18";
             "2024-01-19"; "2024-01-20"; "2024-01-22"; "2024-01-23"; "2024-01-24"]) ].

Definition files : list (string * DataFrame Z) :=
  [ ("bank1.csv", bank1); ("bank2.csv", bank2); ("bank3.csv", bank3);
    ("receipts.csv", receipts); ("empty.csv", header_only); ("rides.csv", rides);
    ("january.csv", january) ].

(** pandas over the sample files. *)
Definition disk : Pandas Z := pandas files.

Definition jan05 : Timestamp := 1704412800000000000%Z.
Definition jan10 : Timestamp := 1704844800000000000%Z.
Definition jan12 : Timestamp := 1705017600000000000%Z.
Definition feb01 : Timestamp := 1706745600000000000%Z.

(** The table stored after reading [bank1.csv] and [bank2.csv]. *)
Definition ledger : list (Transaction Z) :=
  [ mkTransaction jan05 "Trader Joes" 45%Z "groceries";
    mkTransaction jan10 "Shell Gas" 30%Z "transport";
    mkTransaction feb01 "Netflix" 16%Z "entertainment" ].

(** A stored table with binary64 amounts: sorted by date, no duplicate
    rows, every row categorized by its description. *)
Definition float_ledger : list (Transaction float) :=
  [ mkTransaction jan05 "Cafe Uno" 1%float "dining";
    mkTransaction jan10 "Amazon" 1%float "shopping";
    mkTransaction feb01 "Amazon Store" 1e16%float "shopping" ].

(** The rows of [bank1] with the amount column first and the description
    column last. *)
Definition amount_first : DataFrame Z :=
  [ ("Amount", Int64 [45; 30]%Z);
    ("Date", Object ["2024-01-05"; "2024-01-10"]);
    ("Description", Object ["Trader Joes"; "Shell Gas"]) ].

End Sample.


(** ** [plot_spending_trends] *)

(** A decimal numeral padded with zeros on the left. *)
Fixpoint zero_pad (width : nat) (s : string) : string :=
  if (width <=? String.length s)%nat then s
  else match width with
       | O => s
       | S w => String "0" (zero_pad w s)
       end.

(** [str(period)] for a monthly period: the year and the month, [YYYY-MM]
    (timestamps lie between the years 1677 and 2262). *)
Definition period_str (p : Z) : string :=
  let y := (1970 + p / 12)%Z in
  let m := (p mod 12 + 1)%Z in
  zero_pad 4 (NilZero.string_of_int (Z.to_int y)) +:+ "-" +:+
  zero_pad 2 (NilZero.string_of_int (Z.to_int m)).

(** A plotly figure, recorded as the call that builds it: the data frame
    (key column, amount column) and the keyword arguments. *)
Inductive Figure (Amount : Type) :=
| px_line (data_frame : list (string * Amount)) (x y title : string)
| px_pie (data_frame : list (string * Amount)) (values names title : string).

Arguments px_line {Amount} data_frame x y title.
Arguments px_pie {Amount} data_frame values names title.

Section Plots.

Context {Amount : Type} {num : Numeric Amount}.

Definition plot_spending_trends (self : Analyzer Amount)
    : Result (Figure Amount * Figure Amount) :=
  match data self with
  | None => Raise NoData
  | Some data =>
      let monthly_spending := groupby_sum Z.ltb (fun t => to_period_M (t_date t)) data in
      let monthly_spending := map (fun g => (period_str (fst g), snd g)) monthly_spending in
      let fig1 := px_line monthly_spending "date" "amount" "Monthly Spending Trend" in
      let category_spending := groupby_sum String.ltb t_category data in
      let fig2 := px_pie category_spending "amount" "category" "Spending by Category" in
      OK (fig1, fig2)
  end.

End Plots.

(** ** Further vocabulary *)

(** The category table without the keywords that never decide: "whole
    foods" under groceries and "gas" under utilities. *)
Definition categories_pruned : list (string * list string) :=
  [ ("groceries", ["grocery"; "food"; "market"; "trader"]);
    ("dining", ["restaurant"; "cafe"; "coffee"; "doordash"; "uber eats"]);
    ("transport", ["uber"; "lyft"; "taxi"; "transit"; "gas"; "fuel"]);
    ("shopping", ["amazon"; "target"; "walmart"; "store"]);
    ("utilities", ["electric"; "water"; "internet"; "phone"]);
    ("entertainment", ["netflix"; "spotify"; "movie"; "theater"]);
    ("health", ["pharmacy"; "doctor"; "medical"; "fitness"]) ].

(** The eight category names. *)
Definition category_names : list string :=
  ["groceries"; "dining"; "transport"; "shopping"; "utilities"; "entertainment";
   "health"; "other"].

Definition series_length {Amount : Type} (s : Series Amount) : nat :=
  match s with
  | Float64 vs | Int64 vs => length vs
  | Bool vs => length vs
  | Object vs => length vs
  | Datetime64 vs => length vs
  end.

(** A table of [n] rows: every column holds [n] values. *)
Definition row_count {Amount : Type} (n : nat) (df : DataFrame Amount) : Prop :=
  Forall (fun c => series_length (snd c) = n) df.

(** ASCII text: every character has a code below 128. *)
Definition ascii_text (s : string) : bool :=
  Str.all_chars (fun c => (nat_of_ascii c <? 128)%nat) s.

(** A table whose text cells hold ASCII text only. *)
Definition ascii_table {Amount : Type} (df : DataFrame Amount) : bool :=
  forallb (fun c => match snd c with
                    | Object vs => forallb ascii_text vs
                    | _ => true
                    end) df.

(** A column that passes the amount test of the code: numeric-typed, or
    text-typed with a character of the class in every value. *)
Definition amount_like {Amount : Type} (s : Series Amount) : Prop :=
  dtype s = float64 \/ dtype s = int64 \/
  exists vs, s = Object vs /\ Forall (fun v => Str.any_char amount_class v = true) vs.

(** The characters [.str.replace('[\$,]', '')] deletes. *)
Definition currency_char (c : ascii) : bool := Ascii.eqb c "$" || Ascii.eqb c ",".

(** The first entry of a grouped result under a key. *)
Fixpoint group_lookup {K Amount : Type} `{EqDecision K} (k : K) (groups : list (K * Amount))
    : option Amount :=
  match groups with
  | [] => None
  | (k', s) :: rest => if bool_decide (k' = k) then Some s else group_lookup k rest
  end.

(** The amounts of the rows of one group, in table order. *)
Definition group_amounts {K Amount : Type} `{EqDecision K} (key : Transaction Amount -> K)
    (k : K) (data : list (Transaction Amount)) : list Amount :=
  map t_amount (filter (fun t => key t = k) data).

(** Keys strictly ascending. *)
Definition keys_ascending {K Amount : Type} (key_lt : K -> K -> bool)
    (groups : list (K * Amount)) : Prop :=
  StronglySorted (fun a b => key_lt (fst a) (fst b) = true) groups.

(** Sums in non-increasing order: no entry is smaller than a later one. *)
Definition sums_descending {K Amount : Type} {num : Numeric Amount}
    (groups : list (K * Amount)) : Prop :=
  StronglySorted (fun a b => less (snd a) (snd b) = false) groups.

(** ** Substrings *)


Lemma prefix_app (kw s : string) :
  String.prefix kw s = true <-> exists b, s = kw +:+ b.
Proof.
  revert s; induction kw as [|c kw IH]; intros s; simpl.
  - split; [intros _; now exists s | intros _; now destruct s].
  - destruct s as [|d s]; simpl.
    + split; [discriminate | intros [b Hb]; discriminate Hb].
    + destruct (Ascii.ascii_dec c d) as [->|Hne].
      * rewrite IH. split; intros [b Hb]; exists b; [now rewrite Hb | now inversion Hb].
      * split; [discriminate | intros [b Hb]; inversion Hb; congruence].
Qed.

Lemma contains_spec (kw s : string) :
  Str.contains kw s = true <-> occurs_in kw s.
Proof.
  unfold occurs_in. induction s as [|c s IH]; cbn [Str.contains].
  - rewrite orb_false_r, prefix_app. split.
    + intros [b Hb]. now exists EmptyString, b.
    + intros [a [b Hab]]. destruct a; simpl in Hab; [now exists b | discriminate].
  - rewrite orb_true_iff, prefix_app, IH. split.
    + intros [[b Hb] | [a [b Hab]]].
      * now exists EmptyString, b.
      * exists (String c a), b. simpl. now rewrite Hab.
    + intros [a [b Hab]]. destruct a as [|c' a]; simpl in Hab.
      * left. now exists b.
      * right. exists a, b. now inversion Hab.
Qed.

Lemma any_keyword_spec (keywords : list string) (s : string) :
  any_keyword keywords s = true <-> matches keywords s.
Proof.
  unfold any_keyword, matches. rewrite existsb_exists. split.
  - intros [kw [Hin Hc]]. exists kw. now rewrite list_elem_of_In, <- contains_spec.
  - intros [kw [Hin Hc]]. exists kw. now rewrite <- list_elem_of_In, contains_spec.
Qed.

Lemma any_keyword_false (keywords : list string) (s : string) :
  any_keyword keywords s = false <-> ~ matches keywords s.
Proof. rewrite <- any_keyword_spec. now destruct (any_keyword keywords s). Qed.

(** ** The category scan *)

Section FirstCategory.

Variable description : string.


Lemma first_category_range (items : list (string * list string)) :
  first_category items description ∈ (map fst items ++ ["other"])%list.
Proof.
  induction items as [|[c kws] rest IH]; simpl.
  - apply list_elem_of_singleton. reflexivity.
  - destruct (any_keyword kws description); [left | now right].
Qed.

Lemma first_category_other (items : list (string * list string)) :
  "other" ∉ map fst items ->
  first_category items description = "other" <->
  forall category keywords, (category, keywords) ∈ items -> ~ matches keywords description.
Proof.
  induction items as [|[c kws] rest IH]; simpl; intros Hother.
  - split; [intros _ ? ? Hin; inversion Hin | reflexivity].
  - apply not_elem_of_cons in Hother as [Hc Hrest].
    destruct (any_keyword kws description) eqn:Hany.
    + split; [congruence |].
      intros Hall. exfalso. apply (Hall c kws); [left | now apply any_keyword_spec].
    + rewrite (IH Hrest). apply any_keyword_false in Hany. split.
      * intros Hall c' kws' Hin. apply elem_of_cons in Hin as [[= -> ->] | Hin]; eauto.
      * intros Hall c' kws' Hin. apply (Hall c' kws'). now right.
Qed.

Lemma first_category_at (items : list (string * list string)) (i : nat)
    (category : string) (keywords : list string) :
  NoDup (map fst items) -> "other" ∉ map fst items ->
  items !! i = Some (category, keywords) ->
  first_category items description = category <->
  matches keywords description /\ none_before description items i.
Proof.
  revert i. induction items as [|[c kws] rest IH]; intros i Hnd Hother Hi; [discriminate Hi |].
  simpl in Hnd. apply NoDup_cons in Hnd as [Hc Hnd].
  simpl in Hother. apply not_elem_of_cons in Hother as [Hco Hother].
  simpl. destruct i as [|i]; simpl in Hi.
  - injection Hi as -> ->. destruct (any_keyword keywords description) eqn:Hany.
    + split; [intros _ | reflexivity]. split; [now apply any_keyword_spec |].
      intros j ? ? Hj. lia.
    + split.
      * intros Heq. pose proof (first_category_range rest) as Hr. rewrite Heq in Hr.
        apply elem_of_app in Hr as [Hr | Hr]; [contradiction |].
        apply list_elem_of_singleton in Hr. congruence.
      * intros [Hm _]. apply any_keyword_false in Hany. contradiction.
  - assert (Hin : category ∈ map fst rest).
    { apply list_elem_of_fmap. exists (category, keywords). split; [reflexivity |].
      eapply list_elem_of_lookup_2; eauto. }
    destruct (any_keyword kws description) eqn:Hany.
    + split.
      * intros ->. contradiction.
      * intros [_ Hnone]. exfalso. apply (Hnone 0%nat c kws); [lia | reflexivity |].
        now apply any_keyword_spec.
    + rewrite (IH i Hnd Hother Hi). apply any_keyword_false in Hany.
      split; intros [Hm Hnone]; (split; [exact Hm |]).
      * intros [|j] c' kws' Hj Hl; simpl in Hl.
        -- now injection Hl as <- <-.
        -- apply (Hnone j c' kws'); [lia | exact Hl].
      * intros j c' kws' Hj Hl. apply (Hnone (S j) c' kws'); [lia | exact Hl].
Qed.

End FirstCategory.

Lemma categories_names :
  map fst categories =
  ["groceries"; "dining"; "transport"; "shopping"; "utilities"; "entertainment"; "health"].
Proof. reflexivity. Qed.

Lemma categories_NoDup : NoDup (map fst categories).
Proof. rewrite categories_names. compute_done. Qed.

Lemma categories_no_other : "other" ∉ map fst categories.
Proof. rewrite categories_names. compute_done. Qed.

(** C1. For every description, [categorize_transaction] lower-cases it and
    scans the categories in the declaration order groceries, dining,
    transport, shopping, utilities, entertainment, health: it returns a
    category exactly when one of that category's keywords occurs in the
    lowered description and no keyword of an earlier category does, and it
    returns 'other' exactly when no keyword of any category occurs.  In
    particular a description whose lowered text contains "gas" and no
    keyword of groceries or dining yields 'transport', never 'utilities'. *)
Theorem categorize_first_match (str_lower : string -> string) (description : string) :
  let lowered := str_lower description in
  let answer := categorize_transaction str_lower description in
  map fst categories =
    ["groceries"; "dining"; "transport"; "shopping"; "utilities"; "entertainment"; "health"] /\
  (forall i category keywords,
      categories !! i = Some (category, keywords) ->
      answer = category <->
      matches keywords lowered /\ none_before lowered categories i) /\
  (answer = "other" <->
   forall category keywords,
     (category, keywords) ∈ categories -> ~ matches keywords lowered) /\
  (occurs_in "gas" lowered ->
   (forall category keywords,
       (category, keywords) ∈ categories ->
       category ∈ ["groceries"; "dining"] -> ~ matches keywords lowered) ->
   answer = "transport" /\ answer <> "utilities").
Proof.
  intros lowered answer. subst answer. unfold categorize_transaction. fold lowered.
  split; [reflexivity |]. split; [| split].
  - intros i category keywords Hi.
    apply first_category_at; auto using categories_NoDup, categories_no_other.
  - apply first_category_other, categories_no_other.
  - intros Hgas Hearlier.
    assert (Ht : first_category categories lowered = "transport").
    { apply (first_category_at lowered categories 2 "transport"
               ["uber"; "lyft"; "taxi"; "transit"; "gas"; "fuel"]);
        auto using categories_NoDup, categories_no_other.
      split.
      - exists "gas". split; [compute_done | exact Hgas].
      - intros j category keywords Hj Hl.
        apply (Hearlier category keywords).
        + eapply list_elem_of_lookup_2; eauto.
        + destruct j as [|[|j]]; [| | lia]; injection Hl as <- <-; compute_done. }
    split; [exact Ht | rewrite Ht; discriminate].
Qed.

(** The description "Shell Gas" is categorized as transport. *)
Lemma categorize_first_match_witness :
  categorize_transaction Str.lower "Shell Gas" = "transport" /\
  categorize_transaction Str.lower "Shell Gas" <> "utilities".
Proof.
  apply (proj2 (proj2 (proj2 (categorize_first_match Str.lower "Shell Gas")))).
  - apply contains_spec. vm_compute. reflexivity.
  - intros category keywords Hin Hcat. apply any_keyword_false.
    repeat (apply elem_of_cons in Hin as [Hin | Hin];
            [injection Hin as -> ->;
             first [vm_compute; reflexivity
                   | exfalso; revert Hcat; apply (bool_decide_unpack _); vm_compute; exact I] |]).
    inversion Hin.
Defined.

(** ** The column scans *)

Lemma map_result_succeeds {A B : Type} (f : A -> Result B) (l : list A) :
  succeeds (map_result f l) = forallb (fun a => succeeds (f a)) l.
Proof.
  induction l as [|a l IH]; simpl; [reflexivity |].
  destruct (f a); simpl; [| reflexivity].
  rewrite <- IH. now destruct (map_result f l).
Qed.

Section Scans.

Context {Amount : Type} {pd : Pandas Amount}.


Lemma find_col_Some (test : Series Amount -> bool) (df : DataFrame Amount) (col : string) :
  find_col test df = Some col <->
  exists i s, df !! i = Some (col, s) /\ test s = true /\
    forall j col' s', (j < i)%nat -> df !! j = Some (col', s') -> test s' = false.
Proof.
  induction df as [|[c s] rest IH]; simpl.
  - split; [discriminate | intros (i & s & Hi & _); discriminate Hi].
  - destruct (test s) eqn:Hs.
    + split.
      * intros [= ->]. exists 0%nat, s. repeat split; auto. intros; lia.
      * intros ([|i] & s0 & Hi & Hs0 & Hbefore).
        -- now injection Hi as -> ->.
        -- specialize (Hbefore 0%nat c s ltac:(lia) eq_refl). congruence.
    + rewrite IH. split.
      * intros (i & s0 & Hi & Hs0 & Hbefore). exists (S i), s0. repeat split; auto.
        intros [|j] c' s' Hj Hl; simpl in Hl.
        -- now injection Hl as <- <-.
        -- apply (Hbefore j c' s'); [lia | exact Hl].
      * intros ([|i] & s0 & Hi & Hs0 & Hbefore); simpl in Hi.
        -- injection Hi as <- <-. congruence.
        -- exists i, s0. repeat split; auto.
           intros j c' s' Hj Hl. apply (Hbefore (S j) c' s'); [lia | exact Hl].
Qed.

Lemma find_col_None (test : Series Amount -> bool) (df : DataFrame Amount) :
  find_col test df = None <-> forall col s, (col, s) ∈ df -> test s = false.
Proof.
  induction df as [|[c s] rest IH]; simpl.
  - split; [intros _ ? ? Hin; inversion Hin | reflexivity].
  - destruct (test s) eqn:Hs.
    + split; [discriminate |]. intros Hall. specialize (Hall c s ltac:(left)). congruence.
    + rewrite IH. split.
      * intros Hall c' s' Hin. apply elem_of_cons in Hin as [[= -> ->] | Hin]; eauto.
      * intros Hall c' s' Hin. apply (Hall c' s'). now right.
Qed.


Lemma find_date_col_scan (df : DataFrame Amount) :
  find_date_col df = find_col is_date_col df.
Proof.
  induction df as [|[c s] rest IH]; simpl; [reflexivity |].
  unfold is_date_col. destruct (dtype_eqb (dtype s) object); simpl; [| exact IH].
  destruct (to_datetime s); simpl; [reflexivity | exact IH].
Qed.

Lemma find_amount_col_scan (df : DataFrame Amount) :
  find_amount_col df = find_col is_amount_col df.
Proof. induction df as [|[c s] rest IH]; simpl; [reflexivity | now rewrite IH]. Qed.


Lemma is_date_col_spec (s : Series Amount) : is_date_col s = true <-> date_like s.
Proof.
  unfold is_date_col, date_like. destruct s as [vs|vs|vs|vs|vs]; simpl;
    try (split; [discriminate | intros (vs' & Hvs & _); discriminate Hvs]).
  rewrite map_result_succeeds, forallb_forall. split.
  - intros Hall. exists vs. split; [reflexivity |]. apply Forall_forall. intros v Hv.
    apply list_elem_of_In in Hv. specialize (Hall v Hv). unfold parses_as_date.
    destruct (parse_datetime v); [eauto | discriminate Hall].
  - intros (vs' & [= <-] & Hall) v Hv. apply list_elem_of_In in Hv.
    rewrite Forall_forall in Hall. destruct (Hall v Hv) as [d Hd]. now rewrite Hd.
Qed.

Lemma is_date_col_false (s : Series Amount) : is_date_col s = false <-> ~ date_like s.
Proof. rewrite <- is_date_col_spec. now destruct (is_date_col s). Qed.

(** With distinct labels, [df[col]] is the column the scan stopped at. *)
Lemma getitem_lookup (df : DataFrame Amount) (i : nat) (col : string) (s : Series Amount) :
  NoDup (map fst df) -> df !! i = Some (col, s) -> getitem df col = OK s.
Proof.
  revert i. induction df as [|[c s0] rest IH]; intros i Hnd Hi; [discriminate Hi |].
  simpl in Hnd. apply NoDup_cons in Hnd as [Hc Hnd]. simpl.
  destruct i as [|i]; simpl in Hi.
  - injection Hi as -> ->. now rewrite bool_decide_eq_true_2.
  - rewrite bool_decide_eq_false_2; [eauto |].
    intros ->. apply Hc, list_elem_of_fmap. exists (col, s).
    split; [reflexivity | eapply list_elem_of_lookup_2; eauto].
Qed.


Lemma is_amount_col_spec (s : Series Amount) :
  is_amount_col s = true <->
  dtype s = float64 \/ dtype s = int64 \/
  exists vs, s = Object vs /\ Forall (fun v => Str.any_char amount_class v = true) vs.
Proof.
  destruct s as [vs|vs|vs|vs|vs]; simpl.
  - split; [now left | reflexivity].
  - split; [now right; left | reflexivity].
  - split; [discriminate | intros [? | [? | (? & ? & _)]]; discriminate].
  - unfold str_contains_all. rewrite forallb_forall. split.
    + intros Hall. right; right. exists vs. split; [reflexivity |].
      apply Forall_forall. intros v Hv. apply Hall. now apply list_elem_of_In.
    + intros [? | [? | (vs' & [= <-] & Hall)]]; try discriminate.
      intros v Hv. rewrite Forall_forall in Hall. apply Hall. now apply list_elem_of_In.
  - split; [discriminate | intros [? | [? | (? & ? & _)]]; discriminate].
Qed.

(** What the amount loop computes: the first column that is numeric-typed,
    or text-typed with a class character in every value. *)
Lemma find_amount_col_first (df : DataFrame Amount) (col : string) :
  find_amount_col df = Some col <->
  exists i s, df !! i = Some (col, s) /\ is_amount_col s = true /\
    forall j col' s', (j < i)%nat -> df !! j = Some (col', s') -> is_amount_col s' = false.
Proof. rewrite find_amount_col_scan. apply find_col_Some. Qed.

(** C3. The date column is the first column, left to right, that is
    text-typed and all of whose values parse as dates; no date column is
    found exactly when no column is such.  A column of a native date dtype
    is passed over, and so is a text column holding a value that does not
    parse. *)
Theorem find_date_col_first_text_date_column (df : DataFrame Amount) :
  (forall col, find_date_col df = Some col <->
     exists i s, df !! i = Some (col, s) /\ date_like s /\
       forall j col' s', (j < i)%nat -> df !! j = Some (col', s') -> ~ date_like s') /\
  (find_date_col df = None <-> forall col s, (col, s) ∈ df -> ~ date_like s) /\
  (forall col (vs : list Timestamp),
      find_date_col ((col, Datetime64 vs) :: df) = find_date_col df) /\
  (forall col vs v, v ∈ vs -> parse_datetime v = None ->
      find_date_col ((col, Object vs) :: df) = find_date_col df).
Proof.
  split; [| split; [| split]].
  - intros col. rewrite find_date_col_scan, find_col_Some.
    split; intros (i & s & Hi & Hs & Hbefore); exists i, s.
    + repeat split; [exact Hi | now apply is_date_col_spec |].
      intros j c' s' Hj Hl. apply is_date_col_false. eauto.
    + repeat split; [exact Hi | now apply is_date_col_spec |].
      intros j c' s' Hj Hl. apply is_date_col_false. eauto.
  - rewrite find_date_col_scan, find_col_None.
    split; intros Hall c s Hin; apply is_date_col_false; eauto.
  - reflexivity.
  - intros col vs v Hv Hnone. rewrite !find_date_col_scan. simpl.
    replace (is_date_col (Object vs)) with false; [reflexivity |].
    symmetry. apply is_date_col_false. intros (vs' & [= <-] & Hall).
    rewrite Forall_forall in Hall. destruct (Hall v Hv) as [d Hd]. congruence.
Qed.


End Scans.

(** ** The batch *)

Section Batch.

Context {Amount : Type} {eq_dec : EqDecision Amount} {pd : Pandas Amount}
  {sorter : DateSort Amount}.
Variable str_lower : string -> string.


Lemma read_files_spec (filepaths : list string) dfs out :
  read_files filepaths dfs out =
  (dfs ++ successful_frames filepaths, out ++ failures filepaths)%list.
Proof.
  revert dfs out. induction filepaths as [|p rest IH]; intros dfs out; simpl.
  - now rewrite !app_nil_r.
  - destruct (read_csv p); rewrite IH, <- app_assoc; reflexivity.
Qed.

Lemma process_files_spec (self : Analyzer Amount) (filepaths : list string) :
  process_files str_lower self filepaths =
  match successful_frames filepaths with
  | [] => mkOutcome (failures filepaths) (Raise NoValidFiles) self
  | dfs => mkOutcome (failures filepaths) (OK (combine str_lower dfs))
                     (mkAnalyzer (Some (combine str_lower dfs)))
  end.
Proof.
  unfold process_files. rewrite read_files_spec. simpl.
  now destruct (successful_frames filepaths).
Qed.

Lemma successful_frames_nil (filepaths : list string) :
  successful_frames filepaths = [] <->
  forall p, p ∈ filepaths -> succeeds (read_csv p) = false.
Proof.
  induction filepaths as [|p rest IH]; simpl.
  - split; [intros _ ? Hin; inversion Hin | reflexivity].
  - destruct (read_csv p) eqn:Hp.
    + split; [discriminate |]. intros Hall.
      specialize (Hall p ltac:(left)). rewrite Hp in Hall. discriminate Hall.
    + rewrite IH. split.
      * intros Hall q Hq. apply elem_of_cons in Hq as [-> | Hq]; [now rewrite Hp | eauto].
      * intros Hall q Hq. apply Hall. now right.
Qed.



(** *** Duplicate removal *)

Lemma drop_duplicates_seen_elem (seen rows : list (Row Amount)) (r : Row Amount) :
  r ∈ drop_duplicates_seen seen rows <-> r ∈ rows /\ r ∉ seen.
Proof.
  revert seen. induction rows as [|x rest IH]; intros seen; simpl.
  - split; [intros Hin; inversion Hin | intros [Hin _]; inversion Hin].
  - case_bool_decide as Hx.
    + rewrite IH, elem_of_cons. split; [tauto |].
      intros [[-> | Hin] Hns]; [contradiction | tauto].
    + rewrite !elem_of_cons, IH, not_elem_of_cons. split.
      * intros [-> | [Hin [Hne Hns]]]; tauto.
      * intros [[-> | Hin] Hns]; [tauto |].
        destruct (decide (r = x)) as [-> | Hne]; tauto.
Qed.

Lemma drop_duplicates_seen_NoDup (seen rows : list (Row Amount)) :
  NoDup (drop_duplicates_seen seen rows).
Proof.
  revert seen. induction rows as [|x rest IH]; intros seen; simpl; [constructor |].
  case_bool_decide as Hx; [apply IH |].
  apply NoDup_cons. split; [| apply IH].
  rewrite drop_duplicates_seen_elem, not_elem_of_cons. tauto.
Qed.

Lemma drop_duplicates_elem (rows : list (Row Amount)) (r : Row Amount) :
  r ∈ drop_duplicates rows <-> r ∈ rows.
Proof.
  unfold drop_duplicates. rewrite drop_duplicates_seen_elem. split; [tauto |].
  intros Hin. split; [exact Hin | apply not_elem_of_nil].
Qed.

Lemma drop_duplicates_NoDup (rows : list (Row Amount)) : NoDup (drop_duplicates rows).
Proof. apply drop_duplicates_seen_NoDup. Qed.

(** The rows that survive keep their order. *)
Lemma drop_duplicates_seen_sublist (seen rows : list (Row Amount)) :
  sublist (drop_duplicates_seen seen rows) rows.
Proof.
  revert seen. induction rows as [|x rest IH]; intros seen; simpl; [constructor |].
  case_bool_decide; [apply sublist_cons | apply sublist_skip]; apply IH.
Qed.

(** *** The assembled table *)

Lemma triple_add_category (rows : list (Row Amount)) :
  map triple (map (add_category str_lower) rows) = rows.
Proof.
  induction rows as [|[d s a] rest IH]; simpl; [reflexivity | now rewrite IH].
Qed.

Lemma combine_triples (dfs : list (list (Row Amount))) :
  map triple (combine str_lower dfs) = sort_values (drop_duplicates (concat dfs)).
Proof. unfold combine. apply triple_add_category. Qed.

Lemma filter_none {A : Type} (P : A -> Prop) `{forall a, Decision (P a)} (l : list A) :
  (forall a, a ∈ l -> ~ P a) -> filter P l = [].
Proof.
  induction l as [|a l IH]; intros Hall; [reflexivity |].
  rewrite filter_cons_False by (apply Hall; left).
  apply IH. intros b Hb. apply Hall. now right.
Qed.

Lemma NoDup_count_one {A B : Type} `{EqDecision B} (f : A -> B) (l : list A) (x : B) :
  NoDup (map f l) -> x ∈ map f l ->
  length (filter (fun a => f a = x) l) = 1%nat.
Proof.
  induction l as [|a l IH]; simpl; intros Hnd Hin; [inversion Hin |].
  apply NoDup_cons in Hnd as [Ha Hnd].
  destruct (decide (f a = x)) as [Heq | Hne].
  - rewrite filter_cons_True by exact Heq. simpl. f_equal.
    rewrite filter_none; [reflexivity |].
    intros b Hb Hfb. apply Ha. rewrite Heq, <- Hfb.
    apply list_elem_of_fmap. now exists b.
  - rewrite filter_cons_False by exact Hne. apply IH; [exact Hnd |].
    apply elem_of_cons in Hin as [Hin | Hin]; [congruence | exact Hin].
Qed.

Lemma StronglySorted_lookup {A : Type} (R : A -> A -> Prop) (l : list A) (i j : nat) (a b : A) :
  StronglySorted R l -> (i < j)%nat -> l !! i = Some a -> l !! j = Some b -> R a b.
Proof.
  intros Hs. revert i j. induction Hs as [|x l Hs IH Hall]; intros i j Hij Hi Hj.
  - discriminate Hi.
  - destruct j as [|j]; [lia |]. simpl in Hj. destruct i as [|i]; simpl in Hi.
    + injection Hi as ->. rewrite Forall_forall in Hall. apply Hall.
      eapply list_elem_of_lookup_2; eauto.
    + apply (IH i j); [lia | exact Hi | exact Hj].
Qed.

Lemma process_files_OK (self : Analyzer Amount) (filepaths : list string)
    (data : list (Transaction Amount)) :
  result (process_files str_lower self filepaths) = OK data ->
  data = combine str_lower (successful_frames filepaths).
Proof.
  rewrite process_files_spec. intros Hres.
  destruct (successful_frames filepaths); simpl in Hres; [discriminate | congruence].
Qed.

(** C5, amended. The table [process_files] returns is ascending by date:
    every adjacent pair, and so every pair in table order, has
    non-decreasing dates; and its rows are the deduplicated rows of the
    files that were read, each occurring once.  The order among rows with
    equal dates is whatever the default sort leaves. *)
Theorem process_files_sorted (self : Analyzer Amount) (filepaths : list string)
    (data : list (Transaction Amount)) :
  result (process_files str_lower self filepaths) = OK data ->
  (forall i a b, data !! i = Some a -> data !! S i = Some b -> (t_date a <= t_date b)%Z) /\
  (forall i j a b, (i < j)%nat -> data !! i = Some a -> data !! j = Some b ->
                   (t_date a <= t_date b)%Z) /\
  map triple data ≡ₚ drop_duplicates (concat (successful_frames filepaths)).
Proof.
  intros Hdata. apply process_files_OK in Hdata.
  assert (Htr : map triple data = sort_values (drop_duplicates (concat (successful_frames filepaths)))).
  { rewrite Hdata. apply combine_triples. }
  assert (Hpairs : forall i j a b, (i < j)%nat -> data !! i = Some a -> data !! j = Some b ->
                                   (t_date a <= t_date b)%Z).
  { intros i j a b Hij Hi Hj.
    pose proof (sort_values_sorted (drop_duplicates (concat (successful_frames filepaths)))) as Hs.
    rewrite <- Htr in Hs. apply (Sorted_StronglySorted _) in Hs.
    apply (StronglySorted_lookup _ _ i j (triple a) (triple b) Hs Hij);
      rewrite list_lookup_fmap; [now rewrite Hi | now rewrite Hj]. }
  split; [| split].
  - intros i a b Hi Hj. apply (Hpairs i (S i)); auto.
  - exact Hpairs.
  - rewrite Htr. apply sort_values_perm.
Qed.

(** C6. [process_files] drops exact duplicates of the (date, description,
    amount) triple before it assigns categories: the returned table is the
    categorized, sorted, deduplicated concatenation of the frames read; no
    two of its rows share a triple; every triple read from any file, also
    one read from two files, is the triple of exactly one row; and every
    row carries the category of its description. *)
Theorem process_files_deduplicates (self : Analyzer Amount) (filepaths : list string)
    (data : list (Transaction Amount)) :
  result (process_files str_lower self filepaths) = OK data ->
  data = map (add_category str_lower)
             (sort_values (drop_duplicates (concat (successful_frames filepaths)))) /\
  NoDup (map triple data) /\
  (forall r, r ∈ concat (successful_frames filepaths) ->
             length (filter (fun t => triple t = r) data) = 1%nat) /\
  (forall t, t ∈ data ->
             triple t ∈ concat (successful_frames filepaths) /\
             t_category t = categorize_transaction str_lower (t_description t)).
Proof.
  intros Hdata. apply process_files_OK in Hdata.
  assert (Htr : map triple data = sort_values (drop_duplicates (concat (successful_frames filepaths)))).
  { rewrite Hdata. apply combine_triples. }
  assert (Hnd : NoDup (map triple data)).
  { rewrite Htr, sort_values_perm. apply drop_duplicates_NoDup. }
  assert (Hel : forall r, r ∈ map triple data <-> r ∈ concat (successful_frames filepaths)).
  { intros r. rewrite Htr, sort_values_perm. apply drop_duplicates_elem. }
  split; [exact Hdata |]. split; [exact Hnd |]. split.
  - intros r Hr. apply NoDup_count_one; [exact Hnd | now apply Hel].
  - intros t Ht. split.
    + apply Hel, list_elem_of_fmap. now exists t.
    + rewrite Hdata in Ht. unfold combine in Ht.
      apply list_elem_of_fmap in Ht as (r & -> & _). reflexivity.
Qed.


(** C10. When [read_csv] raises on every path, [process_files] raises the
    no-valid-files error and leaves the analyzer as it was: the table
    stored by an earlier run is still there. *)
Theorem process_files_failure_keeps_data (self : Analyzer Amount) (filepaths : list string) :
  (forall p, p ∈ filepaths -> succeeds (read_csv p) = false) ->
  result (process_files str_lower self filepaths) = Raise NoValidFiles /\
  after (process_files str_lower self filepaths) = self /\
  data (after (process_files str_lower self filepaths)) = data self.
Proof.
  intros Hall. rewrite process_files_spec.
  apply successful_frames_nil in Hall. rewrite Hall. simpl. auto.
Qed.

End Batch.

(** ** The report *)

Section Report.

Context {Amount : Type} {num : Numeric Amount}.

#[local] Arguments series_sum : simpl never.

(** C8, amended. [generate_insights] raises the no-data error exactly when
    nothing is stored ([self.data is None]); on any stored table, also one
    with zero rows, it returns a report. *)
Theorem generate_insights_no_data (self : Analyzer Amount) :
  (generate_insights self = Raise NoData <-> data self = None) /\
  (forall rows, data self = Some rows -> exists report, generate_insights self = OK report) /\
  (forall e, generate_insights self = Raise e -> e = NoData).
Proof.
  unfold generate_insights. destruct (data self) as [rows|].
  - split; [split; discriminate |]. split; [eauto | discriminate].
  - split; [split; reflexivity |]. split; [discriminate | congruence].
Qed.

Section ExactSums.

(** Addition without rounding: integer amounts, or any exact number type. *)
Hypothesis add_assoc : forall a b c : Amount, add a (add b c) = add (add a b) c.
Hypothesis add_comm : forall a b : Amount, add a b = add b a.
Hypothesis add_zero_l : forall a : Amount, add zero a = a.

Lemma fold_add_start (vs : list Amount) (a : Amount) :
  fold_left add vs a = add a (series_sum vs).
Proof.
  unfold series_sum. revert a. induction vs as [|v vs IH]; intros a; simpl.
  - now rewrite add_comm, add_zero_l.
  - rewrite IH, (IH (add zero v)), add_zero_l. now rewrite add_assoc.
Qed.

Lemma series_sum_cons (v : Amount) (vs : list Amount) :
  series_sum (v :: vs) = add v (series_sum vs).
Proof. unfold series_sum at 1. simpl. now rewrite fold_add_start, add_zero_l. Qed.

Context {K : Type} `{EqDecision K} (key_lt : K -> K -> bool).

Lemma group_add_sum (k : K) (v : Amount) (groups : list (K * Amount)) :
  series_sum (map snd (group_add key_lt k v groups)) =
  add v (series_sum (map snd groups)).
Proof.
  induction groups as [|[k' s] rest IH]; simpl.
  - now rewrite !series_sum_cons, add_zero_l.
  - case_bool_decide; [| destruct (key_lt k k')]; simpl; rewrite !series_sum_cons.
    + now rewrite (add_comm s v), add_assoc.
    + now rewrite add_zero_l.
    + now rewrite IH, !add_assoc, (add_comm s v).
Qed.

Lemma groupby_sum_from (key : Transaction Amount -> K) (rows : list (Transaction Amount))
    (groups : list (K * Amount)) :
  series_sum (map snd (fold_left (fun g t => group_add key_lt (key t) (t_amount t) g)
                                 rows groups)) =
  add (series_sum (map snd groups)) (series_sum (map t_amount rows)).
Proof.
  revert groups. induction rows as [|t rows IH]; intros groups; simpl.
  - unfold series_sum at 3. simpl. now rewrite add_comm, add_zero_l.
  - rewrite IH, group_add_sum, series_sum_cons.
    now rewrite (add_comm (t_amount t)), add_assoc.
Qed.

Lemma groupby_sum_total (key : Transaction Amount -> K) (rows : list (Transaction Amount)) :
  series_sum (map snd (groupby_sum key_lt key rows)) = series_sum (map t_amount rows).
Proof. unfold groupby_sum. rewrite groupby_sum_from. apply add_zero_l. Qed.

End ExactSums.

(** C9, amended. When the addition of the amount column is exact
    (associative and commutative, with zero neutral, as for whole-number
    amounts), the per-category sums of a report, 'other' included, add up
    to its total spending. *)
Theorem spending_by_category_adds_up
    (add_assoc : forall a b c : Amount, add a (add b c) = add (add a b) c)
    (add_comm : forall a b : Amount, add a b = add b a)
    (add_zero_l : forall a : Amount, add zero a = a)
    (self : Analyzer Amount) (report : Insights Amount) :
  generate_insights self = OK report ->
  series_sum (map snd (spending_by_category report)) = total_spending report.
Proof.
  unfold generate_insights. destruct (data self) as [rows|]; [| discriminate].
  intros [= <-]. simpl. now apply groupby_sum_total.
Qed.

End Report.

(** ** The model run on the sample files *)

Import Sample.

(** C2 (the code at the failing input). In a table whose descriptions all
    hold a digit, the amount loop stops at the description column, although
    "Whole Foods Market #123" has characters outside the class; the scan
    the specification words passes over that column and stops at the
    numeric one.  [read_csv] then fails on the file, since a description is
    no number. *)
Theorem amount_scan_accepts_partial_match :
  find_amount_col receipts = Some "Description" /\
  spec_find_amount_col receipts = Some "Amount" /\
  Str.any_char amount_class "Whole Foods Market #123" = true /\
  Str.all_chars amount_class "Whole Foods Market #123" = false /\
  read_csv (pd := disk) "receipts.csv" = Raise ToNumericError.
Proof. repeat split; vm_compute; reflexivity. Qed.

(** The same loop on a file whose date column comes first: the dates hold
    digits, the date column is taken for the amounts as well, and the file
    is rejected. *)
Example date_first_file_rejected :
  detect_columns (pd := disk) bank3 = (Some "Date", Some "Date") /\
  read_csv (pd := disk) "bank3.csv" = Raise ToNumericError.
Proof. split; vm_compute; reflexivity. Qed.



(** C5 (counterexample). [january.csv] lists twenty purchases in date
    order, the ride with Uber before the ride with Lyft of the same day.
    The default sort partitions the twenty rows around the date of the
    tenth row, and the two rides come out in the opposite order; every
    other row keeps its place. *)
Lemma equal_dates_reordered :
  (exists rows,
     read_csv (pd := disk) "january.csv" = OK rows /\
     length rows = 20%nat /\
     rows !! 8%nat = Some (mkRow jan12 "Uber" 20%Z) /\
     rows !! 9%nat = Some (mkRow jan12 "Lyft" 15%Z) /\
     Numpy.aquicksort (map date rows) =
       Some [0; 1; 2; 3; 4; 5; 6; 7; 9; 8; 10; 11; 12; 13; 14; 15; 16; 17; 18; 19]%nat) /\
  (exists table,
     result (process_files (pd := disk) (sorter := numpy_quicksort) Str.lower init
               ["january.csv"]) = OK table /\
     table !! 8%nat = Some (mkTransaction jan12 "Lyft" 15%Z "transport") /\
     table !! 9%nat = Some (mkTransaction jan12 "Uber" 20%Z "transport") /\
     map t_description table =
       ["Trader Joes"; "Shell Gas"; "Netflix"; "Starbucks Coffee"; "Amazon";
        "Whole Foods Market"; "Spotify"; "City Pharmacy"; "Lyft"; "Uber";
        "Target"; "Electric Company"; "Doordash"; "Walmart"; "Movie Theater";
        "City Transit"; "Water Works"; "Corner Cafe"; "Fitness Club"; "Book Store"]).
Proof.
  split; eexists; (split; [vm_compute; reflexivity |]); repeat split; vm_compute; reflexivity.
Qed.

(** A short table is sorted by insertion alone, which keeps rows of the
    same date in file order: the two rides of [rides.csv] stay as they are
    listed. *)
Example rides_keep_file_order :
  result (process_files (pd := disk) (sorter := numpy_quicksort) Str.lower init ["rides.csv"]) =
    OK [mkTransaction jan05 "Uber" 20%Z "transport";
        mkTransaction jan05 "Lyft" 15%Z "transport"].
Proof. vm_compute; reflexivity. Qed.

(** The two bank files merge into [ledger], which is ascending by date. *)
Lemma process_files_sorted_witness :
  result (process_files (pd := disk) (sorter := numpy_quicksort) Str.lower init
            ["bank1.csv"; "bank2.csv"]) = OK ledger /\
  (forall i a b, ledger !! i = Some a -> ledger !! S i = Some b -> (t_date a <= t_date b)%Z).
Proof.
  assert (Hrun : result (process_files (pd := disk) (sorter := numpy_quicksort) Str.lower init
                           ["bank1.csv"; "bank2.csv"]) = OK ledger)
    by (vm_compute; reflexivity).
  split; [exact Hrun |].
  exact (proj1 (process_files_sorted Str.lower init _ ledger Hrun)).
Defined.

(** The purchase listed in both bank files is stored once. *)
Lemma process_files_deduplicates_witness :
  result (process_files (pd := disk) (sorter := numpy_quicksort) Str.lower init
            ["bank1.csv"; "bank2.csv"]) = OK ledger /\
  read_csv (pd := disk) "bank1.csv" =
    OK [mkRow jan05 "Trader Joes" 45%Z; mkRow jan10 "Shell Gas" 30%Z] /\
  read_csv (pd := disk) "bank2.csv" =
    OK [mkRow jan05 "Trader Joes" 45%Z; mkRow feb01 "Netflix" 16%Z] /\
  length (filter (fun t => triple t = mkRow jan05 "Trader Joes" 45%Z) ledger) = 1%nat.
Proof.
  assert (Hrun : result (process_files (pd := disk) (sorter := numpy_quicksort) Str.lower init
                           ["bank1.csv"; "bank2.csv"]) = OK ledger)
    by (vm_compute; reflexivity).
  split; [exact Hrun |]. split; [vm_compute; reflexivity |]. split; [vm_compute; reflexivity |].
  apply (proj1 (proj2 (proj2 (process_files_deduplicates Str.lower init _ ledger Hrun)))).
  apply (bool_decide_unpack _). vm_compute. exact I.
Defined.

(** C8 (counterexample). Reading the header-only file stores a table with
    zero rows, and [generate_insights] returns a report on it. *)
Lemma empty_table_report :
  after (process_files (pd := disk) (sorter := numpy_quicksort) Str.lower init ["empty.csv"]) =
    mkAnalyzer (Some []) /\
  generate_insights (num := Z_numeric) (mkAnalyzer (Some [])) = OK (mkInsights 0%Z nan [] [] []).
Proof. split; vm_compute; reflexivity. Qed.

(** C9 (counterexample). With binary64 amounts 1, 1 and 1e16 the total is
    10000000000000002, while the shopping sum 1 + 1e16 rounds to 1e16 and
    the category sums add up to 1e16. *)
Lemma float_category_sums_differ :
  map (add_category Str.lower) (map triple float_ledger) = float_ledger /\
  exists report,
    generate_insights (num := float_numeric) (mkAnalyzer (Some float_ledger)) = OK report /\
    total_spending report = 10000000000000002%float /\
    spending_by_category report = [("dining", 1%float); ("shopping", 1e16%float)] /\
    series_sum (num := float_numeric) (map snd (spending_by_category report)) = 1e16%float /\
    series_sum (num := float_numeric) (map snd (spending_by_category report)) <>
      total_spending report.
Proof.
  split; [vm_compute; reflexivity |].
  eexists. split; [reflexivity |]. simpl.
  repeat split; try (vm_compute; reflexivity).
  vm_compute. intros Heq. discriminate Heq.
Qed.

(** With whole-number amounts the category sums of [ledger] add up to 91. *)
Lemma spending_by_category_adds_up_witness :
  exists report,
    generate_insights (num := Z_numeric) (mkAnalyzer (Some ledger)) = OK report /\
    spending_by_category report = [("entertainment", 16%Z); ("groceries", 45%Z); ("transport", 30%Z)] /\
    total_spending report = 91%Z /\
    series_sum (num := Z_numeric) (map snd (spending_by_category report)) =
      total_spending report.
Proof.
  eexists. split; [reflexivity |].
  split; [vm_compute; reflexivity |]. split; [vm_compute; reflexivity |].
  apply (spending_by_category_adds_up (num := Z_numeric) Z.add_assoc Z.add_comm Z.add_0_l
           (mkAnalyzer (Some ledger))).
  reflexivity.
Defined.

(** A run over a missing file and a rejected file keeps the stored [ledger]. *)
Lemma process_files_failure_keeps_data_witness :
  let self := after (process_files (pd := disk) (sorter := numpy_quicksort) Str.lower init
                       ["bank1.csv"; "bank2.csv"]) in
  let outcome := process_files (pd := disk) (sorter := numpy_quicksort) Str.lower self
                   ["missing.csv"; "bank3.csv"] in
  data self = Some ledger /\
  (forall p, p ∈ ["missing.csv"; "bank3.csv"] -> succeeds (read_csv (pd := disk) p) = false) /\
  result outcome = Raise NoValidFiles /\
  data (after outcome) = Some ledger.
Proof.
  intros self outcome.
  assert (Hself : data self = Some ledger) by (vm_compute; reflexivity).
  assert (Hall : forall p, p ∈ ["missing.csv"; "bank3.csv"] ->
                           succeeds (read_csv (pd := disk) p) = false).
  { intros p Hp. repeat (apply elem_of_cons in Hp as [-> | Hp]; [vm_compute; reflexivity |]).
    inversion Hp. }
  split; [exact Hself |]. split; [exact Hall |].
  destruct (process_files_failure_keeps_data (pd := disk) (sorter := numpy_quicksort)
              Str.lower self ["missing.csv"; "bank3.csv"] Hall) as (Hres & _ & Hdata).
  split; [exact Hres |]. subst outcome. rewrite Hdata. exact Hself.
Defined.

(** ** Further properties of the categories *)

Lemma string_app_assoc (a b c : string) : (a +:+ b) +:+ c = a +:+ (b +:+ c).
Proof.
  induction a as [|x a IH]; [reflexivity |].
  change (String x ((a +:+ b) +:+ c) = String x (a +:+ (b +:+ c))). now rewrite IH.
Qed.

Lemma occurs_in_trans (a b c : string) : occurs_in a b -> occurs_in b c -> occurs_in a c.
Proof.
  intros (p & q & ->) (p' & q' & ->). exists (p' +:+ p), (q +:+ q').
  now rewrite !string_app_assoc.
Qed.

(** X6. Whatever the description, [categorize_transaction] answers with one
    of the eight category names: never an empty or unknown category. *)
Theorem categorize_in_category_names (str_lower : string -> string) (description : string) :
  categorize_transaction str_lower description ∈ category_names.
Proof.
  unfold categorize_transaction.
  pose proof (first_category_range (str_lower description) categories) as Hr.
  exact Hr.
Qed.

(** X7. Two keywords of the table never decide an answer: "whole foods"
    (a description holding it holds "food") and the "gas" listed under
    utilities (transport is asked first).  The category of every
    description is the one the table without them gives. *)
Theorem categorize_dead_keywords (str_lower : string -> string) (description : string) :
  categorize_transaction str_lower description =
  first_category categories_pruned (str_lower description).
Proof.
  unfold categorize_transaction. set (s := str_lower description).
  assert (Hfood : Str.contains "whole foods" s = true -> Str.contains "food" s = true).
  { rewrite !contains_spec. apply occurs_in_trans.
    exists "whole ", "s". reflexivity. }
  unfold categories, categories_pruned, first_category, any_keyword, existsb.
  destruct (Str.contains "grocery" s); [reflexivity |].
  destruct (Str.contains "food" s) eqn:Hf; [reflexivity |].
  destruct (Str.contains "whole foods" s) eqn:Hw.
  { specialize (Hfood eq_refl). discriminate Hfood. }
  destruct (Str.contains "gas" s); simpl.
  - repeat (match goal with |- context [Str.contains ?k s] => destruct (Str.contains k s) end;
            simpl; try reflexivity).
  - repeat (match goal with |- context [Str.contains ?k s] => destruct (Str.contains k s) end;
            simpl; try reflexivity).
Qed.

(** X8. A description whose lowered text holds "uber eats" is filed under
    dining, or under groceries when a groceries keyword occurs as well;
    never under transport, although "uber" is a transport keyword. *)
Theorem categorize_uber_eats (str_lower : string -> string) (description : string) :
  occurs_in "uber eats" (str_lower description) ->
  categorize_transaction str_lower description = "groceries" \/
  categorize_transaction str_lower description = "dining".
Proof.
  intros Hocc. apply contains_spec in Hocc.
  unfold categorize_transaction. set (s := str_lower description) in *.
  unfold categories, first_category.
  destruct (any_keyword _ s); [now left | right].
  unfold any_keyword, existsb. rewrite Hocc, !orb_true_r. reflexivity.
Qed.

Lemma categorize_uber_eats_witness :
  occurs_in "uber eats" (Str.lower "Uber Eats order") /\
  categorize_transaction Str.lower "Uber Eats order" = "dining".
Proof.
  assert (Hocc : occurs_in "uber eats" (Str.lower "Uber Eats order")).
  { apply contains_spec. vm_compute. reflexivity. }
  split; [exact Hocc |].
  destruct (categorize_uber_eats Str.lower "Uber Eats order" Hocc) as [Hg | Hd];
    [vm_compute in Hg; discriminate Hg | exact Hd].
Defined.

(** ** Currency text *)

Lemma remove_chars_app (p : ascii -> bool) (a b : string) :
  Str.remove_chars p (a +:+ b) = Str.remove_chars p a +:+ Str.remove_chars p b.
Proof.
  induction a as [|c a IH]; simpl; [reflexivity |].
  destruct (p c); simpl; now rewrite IH.
Qed.

Lemma remove_chars_none (p : ascii -> bool) (s : string) :
  Str.any_char p (Str.remove_chars p s) = false.
Proof.
  induction s as [|c s IH]; simpl; [reflexivity |].
  destruct (p c) eqn:Hc; simpl; [exact IH | now rewrite Hc, IH].
Qed.

Lemma remove_chars_id (p : ascii -> bool) (s : string) :
  Str.any_char p s = false -> Str.remove_chars p s = s.
Proof.
  induction s as [|c s IH]; simpl; [reflexivity |].
  destruct (p c); simpl; [discriminate | intros Hs; now rewrite IH].
Qed.

(** X5. The amount text is cleaned of dollar signs and commas and of
    nothing else: the cleaned text holds neither, a text without them is
    unchanged, cleaning twice changes nothing more, and cleaning works
    piece by piece, so the other characters keep their order. *)
Theorem strip_currency_removes_only_currency (v w : string) :
  Str.any_char currency_char (strip_currency v) = false /\
  (Str.any_char currency_char v = false <-> strip_currency v = v) /\
  strip_currency (strip_currency v) = strip_currency v /\
  strip_currency (v +:+ w) = strip_currency v +:+ strip_currency w.
Proof.
  unfold strip_currency. fold currency_char.
  split; [apply remove_chars_none |]. split; [| split].
  - split; [apply remove_chars_id |].
    intros Heq. rewrite <- Heq. apply remove_chars_none.
  - apply remove_chars_id, remove_chars_none.
  - apply remove_chars_app.
Qed.

(** ** Further properties of [read_csv] *)

Lemma map_result_OK {A B : Type} (f : A -> Result B) (l : list A) (bs : list B) :
  map_result f l = OK bs <-> Forall2 (fun a b => f a = OK b) l bs.
Proof.
  revert bs. induction l as [|a l IH]; intros bs; simpl.
  - split; [intros [= <-]; constructor | intros Hf; inversion Hf; reflexivity].
  - destruct (f a) as [b|e] eqn:Ha; simpl.
    + destruct (map_result f l) as [bs'|e] eqn:Hl; simpl.
      * split.
        -- intros [= <-]. constructor; [exact Ha | now apply IH].
        -- intros Hf. inversion Hf as [|? b0 ? bs0 Hb Hrest]; subst.
           apply IH in Hrest. congruence.
      * split; [discriminate |]. intros Hf.
        inversion Hf as [|? b0 ? bs0 Hb Hrest]; subst. apply IH in Hrest. discriminate Hrest.
    + split; [discriminate |]. intros Hf. inversion Hf; congruence.
Qed.

Lemma map_result_Raise {A B : Type} (f : A -> Result B) (l : list A) (e : Exception) :
  map_result f l = Raise e -> exists a, a ∈ l /\ f a = Raise e.
Proof.
  induction l as [|a l IH]; simpl; [discriminate |].
  destruct (f a) as [b|e'] eqn:Ha; simpl.
  - destruct (map_result f l) as [bs|e'] eqn:Hl; simpl; [discriminate |].
    intros [= ->]. destruct (IH eq_refl) as (a' & Hin & Ha'). exists a'. split; [now right | exact Ha'].
  - intros [= ->]. exists a. split; [left | exact Ha].
Qed.

Section ReadCsvFacts.

Context {Amount : Type} {pd : Pandas Amount}.

Lemma getitem_elem (df : DataFrame Amount) (col : string) (s : Series Amount) :
  getitem df col = OK s -> (col, s) ∈ df.
Proof.
  induction df as [|[c s0] rest IH]; simpl; [discriminate |].
  case_bool_decide as Hc.
  - intros [= <-]. subst c. left.
  - intros Hg. right. auto.
Qed.

Lemma getitem_Raise (df : DataFrame Amount) (col : string) (e : Exception) :
  getitem df col = Raise e -> e = KeyError.
Proof.
  induction df as [|[c s0] rest IH]; simpl; [congruence |].
  case_bool_decide; [discriminate | exact IH].
Qed.

Lemma first_object_col_elem (df : DataFrame Amount) (vs : list string) :
  first_object_col df = OK vs -> exists col, (col, Object vs) ∈ df.
Proof.
  induction df as [|[c s] rest IH]; simpl; [discriminate |].
  destruct s as [x|x|x|x|x];
    try (intros Hf; destruct (IH Hf) as [col Hcol]; exists col; now right).
  intros [= <-]. exists c. left.
Qed.

Lemma first_object_col_Raise (df : DataFrame Amount) (e : Exception) :
  first_object_col df = Raise e -> e = IndexError.
Proof.
  induction df as [|[c s] rest IH]; simpl; [congruence |].
  destruct s; auto; discriminate.
Qed.

Lemma first_object_col_some (df : DataFrame Amount) (col : string) (vs : list string) :
  (col, Object vs) ∈ df -> exists vs', first_object_col df = OK vs'.
Proof.
  induction df as [|[c s] rest IH]; intros Hin; [inversion Hin |].
  simpl. destruct s as [x|x|x|x|x]; try (apply IH;
    apply elem_of_cons in Hin as [Hin | Hin]; [discriminate Hin | exact Hin]).
  eauto.
Qed.

(** The first text column of a table whose earlier columns are not text. *)
Lemma first_object_col_prefix (pre post : DataFrame Amount) (col : string) (vs : list string) :
  Forall (fun c => dtype (snd c) <> object) pre ->
  first_object_col (pre ++ (col, Object vs) :: post)%list = OK vs.
Proof.
  induction pre as [|[c s] pre IH]; intros Hpre; simpl; [reflexivity |].
  apply Forall_cons in Hpre as [Hs Hpre]. simpl in Hs.
  destruct s; try (now apply IH). contradiction.
Qed.

Lemma to_datetime_Raise (s : Series Amount) (e : Exception) :
  to_datetime s = Raise e -> e = ToDatetimeError \/ e = TypeError.
Proof.
  destruct s as [vs|vs|vs|vs|vs]; simpl; try discriminate.
  - intros Hm. apply map_result_Raise in Hm as (v & _ & Hv).
    destruct (epoch_datetime v); simpl in Hv; [discriminate | left; congruence].
  - intros Hm. apply map_result_Raise in Hm as (v & _ & Hv).
    destruct (epoch_datetime v); simpl in Hv; [discriminate | left; congruence].
  - intros [= <-]. now right.
  - intros Hm. apply map_result_Raise in Hm as (v & _ & Hv).
    destruct (parse_datetime v); simpl in Hv; [discriminate | left; congruence].
Qed.

Lemma to_numeric_Raise (vs : list string) (e : Exception) :
  to_numeric vs = Raise e ->
  e = ToNumericError /\ exists v, v ∈ vs /\ parse_numeric v = None.
Proof.
  intros Hm. apply map_result_Raise in Hm as (v & Hin & Hv).
  destruct (parse_numeric v) eqn:Hp; simpl in Hv; [discriminate |].
  split; [congruence | eauto].
Qed.

Lemma to_numeric_OK (vs : list string) (amounts : list Amount) :
  to_numeric vs = OK amounts <-> Forall2 (fun v a => parse_numeric v = Some a) vs amounts.
Proof.
  unfold to_numeric. rewrite map_result_OK. split; intros Hf;
    (eapply Forall2_impl; [exact Hf |]); simpl; intros v a Hv.
  - destruct (parse_numeric v); simpl in Hv; congruence.
  - now rewrite Hv.
Qed.

Lemma to_datetime_object_OK (vs : list string) (dates : list Timestamp) :
  to_datetime (Object vs : Series Amount) = OK dates <->
  Forall2 (fun v d => parse_datetime v = Some d) vs dates.
Proof.
  simpl. rewrite map_result_OK. split; intros Hf;
    (eapply Forall2_impl; [exact Hf |]); simpl; intros v a Hv.
  - destruct (parse_datetime v); simpl in Hv; congruence.
  - now rewrite Hv.
Qed.

(** The guard of [read_csv] as a test on the two labels. *)
Lemma standardize_guard (df : DataFrame Amount) :
  not_col (find_date_col df) || not_col (find_amount_col df) = true ->
  standardize df = Raise ColumnsNotFound.
Proof. unfold standardize, detect_columns. now intros ->. Qed.

Lemma not_col_false (col : option string) :
  not_col col = false <-> exists name, col = Some name /\ name <> "".
Proof.
  destruct col as [name|]; simpl.
  - rewrite bool_decide_eq_false. split; [eauto | intros (n & [= <-] & Hn); exact Hn].
  - split; [discriminate | intros (n & Hn & _); discriminate Hn].
Qed.

(** Past the guard, with distinct labels: the date column is re-read and
    parsed as in the scan, a text column exists, and only the amounts are
    left to parse. *)
Lemma standardize_identified (df : DataFrame Amount) :
  NoDup (map fst df) ->
  not_col (find_date_col df) || not_col (find_amount_col df) = false ->
  exists dc ac texts dates descs s_amt,
    find_date_col df = Some dc /\ dc <> "" /\
    find_amount_col df = Some ac /\ ac <> "" /\
    getitem df dc = OK (Object texts) /\
    Forall2 (fun v d => parse_datetime v = Some d) texts dates /\
    first_object_col df = OK descs /\
    getitem df ac = OK s_amt /\
    is_amount_col s_amt = true /\
    standardize df =
      (let* amounts := to_numeric (map strip_currency (astype_str s_amt)) in
       OK (standard_frame dates descs amounts)).
Proof.
  intros Hnd Hguard. apply orb_false_iff in Hguard as [Hd Ha].
  apply not_col_false in Hd as (dc & Hdc & Hdne).
  apply not_col_false in Ha as (ac & Hac & Hane).
  pose proof Hdc as Hscan. rewrite find_date_col_scan in Hscan.
  apply find_col_Some in Hscan as (i & s & Hi & Hs & _).
  pose proof Hac as Hscan. rewrite find_amount_col_scan in Hscan.
  apply find_col_Some in Hscan as (k & s_amt & Hk & Hsa & _).
  unfold is_date_col in Hs. apply andb_true_iff in Hs as [Hobj Hok].
  destruct s as [x|x|x|texts|x]; try discriminate Hobj.
  destruct (to_datetime (Object texts)) as [dates|e] eqn:Hdates; [| discriminate Hok].
  pose proof (getitem_lookup df i dc _ Hnd Hi) as Hgd.
  pose proof (getitem_lookup df k ac _ Hnd Hk) as Hga.
  destruct (first_object_col_some df dc texts) as [descs Hdescs].
  { eapply list_elem_of_lookup_2; eauto. }
  exists dc, ac, texts, dates, descs, s_amt.
  repeat (split; [assumption || (now apply to_datetime_object_OK) |]).
  unfold standardize, detect_columns. rewrite Hdc, Hac. simpl.
  rewrite (bool_decide_eq_false_2 _ Hdne), (bool_decide_eq_false_2 _ Hane). simpl.
  rewrite Hgd. simpl. unfold to_datetime in Hdates. rewrite Hdates. simpl.
  rewrite Hdescs. simpl. rewrite Hga. reflexivity.
Qed.

(** Every exception [read_csv] can raise on a loaded table. *)
Lemma standardize_Raise (df : DataFrame Amount) (e : Exception) :
  standardize df = Raise e ->
  (e = ColumnsNotFound /\ not_col (find_date_col df) || not_col (find_amount_col df) = true) \/
  (e <> ColumnsNotFound /\ e <> ReadCsvError /\
   not_col (find_date_col df) || not_col (find_amount_col df) = false).
Proof.
  unfold standardize, detect_columns.
  destruct (not_col (find_date_col df) || not_col (find_amount_col df)).
  - intros [= <-]. now left.
  - intros Hr. right. split; [| split; [| reflexivity]].
    + intros ->.
      destruct (getitem df (default "" (find_date_col df))) as [s|e1] eqn:Hg; simpl in Hr;
        [| apply getitem_Raise in Hg; congruence].
      destruct (to_datetime s) as [ds|e1] eqn:Ht; simpl in Hr;
        [| apply to_datetime_Raise in Ht as [? | ?]; congruence].
      destruct (first_object_col df) as [descs|e1] eqn:Hf; simpl in Hr;
        [| apply first_object_col_Raise in Hf; congruence].
      destruct (getitem df (default "" (find_amount_col df))) as [s2|e1] eqn:Hg2; simpl in Hr;
        [| apply getitem_Raise in Hg2; congruence].
      destruct (to_numeric _) as [am|e1] eqn:Hn; simpl in Hr; [discriminate |].
      apply to_numeric_Raise in Hn as [? _]. congruence.
    + intros ->.
      destruct (getitem df (default "" (find_date_col df))) as [s|e1] eqn:Hg; simpl in Hr;
        [| apply getitem_Raise in Hg; congruence].
      destruct (to_datetime s) as [ds|e1] eqn:Ht; simpl in Hr;
        [| apply to_datetime_Raise in Ht as [? | ?]; congruence].
      destruct (first_object_col df) as [descs|e1] eqn:Hf; simpl in Hr;
        [| apply first_object_col_Raise in Hf; congruence].
      destruct (getitem df (default "" (find_amount_col df))) as [s2|e1] eqn:Hg2; simpl in Hr;
        [| apply getitem_Raise in Hg2; congruence].
      destruct (to_numeric _) as [am|e1] eqn:Hn; simpl in Hr; [discriminate |].
      apply to_numeric_Raise in Hn as [? _]. congruence.
Qed.

(** X1. On a loaded table [read_csv] raises "Could not identify date and
    amount columns" exactly when no text column parses as dates
    throughout, or no column passes the amount test, or a chosen label is
    the empty string. *)
Theorem standardize_columns_not_found (df : DataFrame Amount) :
  standardize df = Raise ColumnsNotFound <->
  (forall col s, (col, s) ∈ df -> ~ date_like s) \/
  (forall col s, (col, s) ∈ df -> is_amount_col s = false) \/
  find_date_col df = Some "" \/ find_amount_col df = Some "".
Proof.
  assert (Hguard : not_col (find_date_col df) || not_col (find_amount_col df) = true <->
          (forall col s, (col, s) ∈ df -> ~ date_like s) \/
          (forall col s, (col, s) ∈ df -> is_amount_col s = false) \/
          find_date_col df = Some "" \/ find_amount_col df = Some "").
  { rewrite orb_true_iff.
    assert (Hnc : forall c, not_col c = true <-> c = None \/ c = Some "").
    { intros [name|]; simpl; [rewrite bool_decide_eq_true | ].
      - split; [intros ->; now right | intros [? | [= ->]]; [discriminate | reflexivity]].
      - split; [now left | reflexivity]. }
    rewrite !Hnc.
    assert (Hd : find_date_col df = None <-> forall col s, (col, s) ∈ df -> ~ date_like s).
    { rewrite find_date_col_scan, find_col_None.
      split; intros Hall c s Hin; apply is_date_col_false; eauto. }
    assert (Ha : find_amount_col df = None <->
                 forall col s, (col, s) ∈ df -> is_amount_col s = false).
    { rewrite find_amount_col_scan. apply find_col_None. }
    rewrite Hd, Ha. tauto. }
  rewrite <- Hguard. split.
  - intros Hr. apply standardize_Raise in Hr as [[_ Hg] | [Hne _]]; [exact Hg | congruence].
  - apply standardize_guard.
Qed.

(** X2. [read_csv] raises the load error exactly when [pd.read_csv]
    raises.  On a loaded table with distinct labels the only other
    failures are the could-not-identify error and the number parse error,
    and the latter is raised exactly when the columns are identified and
    some value of the amount column, cleaned of dollar signs and commas,
    is no number. *)
Theorem read_csv_exceptions (filepath : string) :
  (read_csv filepath = Raise ReadCsvError <-> pd_read_csv filepath = None) /\
  (forall df e, pd_read_csv filepath = Some df -> NoDup (map fst df) ->
     read_csv filepath = Raise e -> e = ColumnsNotFound \/ e = ToNumericError) /\
  (forall df, pd_read_csv filepath = Some df -> NoDup (map fst df) ->
     (read_csv filepath = Raise ToNumericError <->
      exists dc ac s_amt v,
        find_date_col df = Some dc /\ dc <> "" /\
        find_amount_col df = Some ac /\ ac <> "" /\
        getitem df ac = OK s_amt /\
        v ∈ astype_str s_amt /\ parse_numeric (strip_currency v) = None)).
Proof.
  unfold read_csv. split; [| split].
  - destruct (pd_read_csv filepath) as [df|]; simpl; [| split; reflexivity].
    split; [| discriminate]. intros Hr.
    apply standardize_Raise in Hr as [[? _] | (_ & ? & _)]; congruence.
  - intros df e -> Hnd. simpl. intros Hr.
    pose proof Hr as Hcase. apply standardize_Raise in Hcase as [[-> _] | (_ & _ & Hg)]; [now left |].
    destruct (standardize_identified df Hnd Hg)
      as (dc & ac & texts & dates & descs & s_amt & _ & _ & _ & _ & _ & _ & _ & _ & _ & Heq).
    rewrite Heq in Hr.
    destruct (to_numeric _) as [am|e1] eqn:Hn; simpl in Hr; [discriminate |].
    apply to_numeric_Raise in Hn as [-> _]. right. congruence.
  - intros df -> Hnd. simpl. split.
    + intros Hr. pose proof Hr as Hcase.
      apply standardize_Raise in Hcase as [[? _] | (_ & _ & Hg)]; [discriminate |].
      destruct (standardize_identified df Hnd Hg)
        as (dc & ac & texts & dates & descs & s_amt & Hdc & Hdne & Hac & Hane & _ & _ & _ & Hga & _ & Heq).
      rewrite Heq in Hr.
      destruct (to_numeric _) as [am|e1] eqn:Hn; simpl in Hr; [discriminate |].
      apply to_numeric_Raise in Hn as (_ & v & Hin & Hv).
      apply list_elem_of_fmap in Hin as (v0 & -> & Hin0).
      exists dc, ac, s_amt, v0. repeat (split; [assumption |]). exact Hv.
    + intros (dc & ac & s_amt & v & Hdc & Hdne & Hac & Hane & Hga & Hin & Hv).
      assert (Hg : not_col (find_date_col df) || not_col (find_amount_col df) = false).
      { rewrite Hdc, Hac. simpl.
        now rewrite (bool_decide_eq_false_2 _ Hdne), (bool_decide_eq_false_2 _ Hane). }
      destruct (standardize_identified df Hnd Hg)
        as (dc' & ac' & texts & dates & descs & s_amt' & _ & _ & Hac' & _ & _ & _ & _ & Hga' & _ & Heq).
      rewrite Heq. assert (ac' = ac) by congruence. subst ac'.
      assert (s_amt' = s_amt) by congruence. subst s_amt'.
      destruct (to_numeric _) as [am|e1] eqn:Hn; simpl.
      * exfalso. apply to_numeric_OK in Hn.
        assert (Hin' : strip_currency v ∈ map strip_currency (astype_str s_amt)).
        { apply list_elem_of_fmap. eauto. }
        apply list_elem_of_lookup in Hin' as [j Hj].
        destruct (Forall2_lookup_l _ _ _ _ _ Hn Hj) as (a & _ & Ha). congruence.
      * apply to_numeric_Raise in Hn as [-> _]. reflexivity.
Qed.

End ReadCsvFacts.

Lemma Forall2_map_r {A B C : Type} (P : A -> C -> Prop) (f : B -> C) (l : list A) (k : list B) :
  Forall2 P l (map f k) -> Forall2 (fun a b => P a (f b)) l k.
Proof.
  revert l. induction k as [|b k IH]; intros l Hf; inversion Hf; subst; constructor; auto.
Qed.

Lemma Forall2_map_l {A B C : Type} (P : C -> B -> Prop) (f : A -> C) (l : list A) (k : list B) :
  Forall2 P (map f l) k -> Forall2 (fun a b => P (f a) b) l k.
Proof.
  revert k. induction l as [|a l IH]; intros k Hf; inversion Hf; subst; constructor; auto.
Qed.

Section StandardFrame.

Context {Amount : Type} {pd : Pandas Amount}.

Lemma standard_frame_fields (dates : list Timestamp) (descs : list string)
    (amounts : list Amount) :
  length dates = length descs -> length descs = length amounts ->
  map date (standard_frame dates descs amounts) = dates /\
  map description (standard_frame dates descs amounts) = descs /\
  map amount (standard_frame dates descs amounts) = amounts.
Proof.
  revert descs amounts. induction dates as [|d dates IH]; intros [|s descs] [|a amounts];
    simpl; try discriminate; auto.
  intros [= H1] [= H2]. destruct (IH descs amounts H1 H2) as (-> & -> & ->). auto.
Qed.

Lemma astype_str_length (s : Series Amount) : length (astype_str s) = series_length s.
Proof. destruct s; simpl; now rewrite ?length_map. Qed.

Lemma row_count_elem (n : nat) (df : DataFrame Amount) (col : string) (s : Series Amount) :
  row_count n df -> (col, s) ∈ df -> series_length s = n.
Proof.
  unfold row_count. rewrite Forall_forall. intros Hall Hin. exact (Hall (col, s) Hin).
Qed.

(** What a successful [read_csv] returns, field by field. *)
Lemma standardize_OK_fields (df : DataFrame Amount) (n : nat) (rows : list (Row Amount)) :
  NoDup (map fst df) -> row_count n df -> standardize df = OK rows ->
  length rows = n /\
  exists dc ac texts descs s_amt,
    find_date_col df = Some dc /\ find_amount_col df = Some ac /\
    getitem df dc = OK (Object texts) /\
    first_object_col df = OK descs /\
    getitem df ac = OK s_amt /\
    Forall2 (fun v r => parse_datetime v = Some (date r)) texts rows /\
    map description rows = descs /\
    Forall2 (fun v r => parse_numeric (strip_currency v) = Some (amount r))
            (astype_str s_amt) rows.
Proof.
  intros Hnd Hn Hok.
  destruct (not_col (find_date_col df) || not_col (find_amount_col df)) eqn:Hg.
  { rewrite (standardize_guard df Hg) in Hok. discriminate Hok. }
  destruct (standardize_identified df Hnd Hg)
    as (dc & ac & texts & dates & descs & s_amt & Hdc & _ & Hac & _ & Hgd & Hdates & Hdescs
        & Hga & _ & Heq).
  rewrite Heq in Hok.
  destruct (to_numeric _) as [amounts|e] eqn:Hnum; simpl in Hok; [| discriminate].
  injection Hok as <-. apply to_numeric_OK in Hnum.
  assert (Hlt : length texts = n).
  { apply getitem_elem in Hgd. apply (row_count_elem n df dc _ Hn Hgd). }
  assert (Hld : length descs = n).
  { apply first_object_col_elem in Hdescs as [c Hc]. apply (row_count_elem n df c _ Hn Hc). }
  assert (Hla : length amounts = n).
  { rewrite <- (Forall2_length _ _ _ Hnum), length_map, astype_str_length.
    apply getitem_elem in Hga. apply (row_count_elem n df ac _ Hn Hga). }
  assert (Hldt : length dates = n) by (rewrite <- (Forall2_length _ _ _ Hdates); exact Hlt).
  destruct (standard_frame_fields dates descs amounts) as (Hfd & Hfs & Hfa); [congruence.. |].
  split.
  { rewrite <- (length_map date), Hfd. exact Hldt. }
  exists dc, ac, texts, descs, s_amt.
  repeat (split; [assumption |]). split; [| split].
  - apply (Forall2_map_r (fun v d => parse_datetime v = Some d) date). rewrite Hfd. exact Hdates.
  - exact Hfs.
  - apply (Forall2_map_r (fun v a => parse_numeric (strip_currency v) = Some a) amount).
    rewrite Hfa. apply Forall2_map_l in Hnum. exact Hnum.
Qed.

(** X3. When [read_csv] returns on a table of [n] rows with distinct
    labels, it returns [n] rows, in table order: each date is the parsed
    text of the date column, each description is the text of the first
    text-typed column, and each amount is the number read from the amount
    column's text without dollar signs and commas. *)
Theorem standardize_rows (df : DataFrame Amount) (n : nat) (rows : list (Row Amount)) :
  NoDup (map fst df) -> row_count n df -> standardize df = OK rows ->
  length rows = n /\
  exists dc ac texts descs s_amt,
    find_date_col df = Some dc /\ find_amount_col df = Some ac /\
    getitem df dc = OK (Object texts) /\
    first_object_col df = OK descs /\
    getitem df ac = OK s_amt /\
    Forall2 (fun v r => parse_datetime v = Some (date r)) texts rows /\
    map description rows = descs /\
    Forall2 (fun v r => parse_numeric (strip_currency v) = Some (amount r))
            (astype_str s_amt) rows.
Proof. apply standardize_OK_fields. Qed.

(** X4. The description is taken from the first text-typed column, whatever
    it holds.  When that column is the date column (no text column comes
    before it), every row's description is the text of its own date. *)
Theorem description_is_date_text (pre post : DataFrame Amount) (dc : string)
    (texts : list string) (n : nat) (rows : list (Row Amount)) :
  NoDup (map fst (pre ++ (dc, Object texts) :: post)%list) ->
  row_count n (pre ++ (dc, Object texts) :: post)%list ->
  Forall (fun c => dtype (snd c) <> object) pre ->
  find_date_col (pre ++ (dc, Object texts) :: post)%list = Some dc ->
  standardize (pre ++ (dc, Object texts) :: post)%list = OK rows ->
  map description rows = texts /\
  Forall (fun r => parse_datetime (description r) = Some (date r)) rows.
Proof.
  intros Hnd Hn Hpre Hdc Hok.
  destruct (standardize_OK_fields _ n rows Hnd Hn Hok)
    as (_ & dc' & ac & texts' & descs & s_amt & Hdc' & _ & Hgd & Hdescs & _ & Hdates & Hmap & _).
  assert (dc' = dc) by congruence. subst dc'.
  rewrite (first_object_col_prefix pre post dc texts Hpre) in Hdescs. injection Hdescs as <-.
  assert (Hg : getitem (pre ++ (dc, Object texts) :: post)%list dc = OK (Object texts)).
  { apply (getitem_lookup _ (length pre)); [exact Hnd |].
    now apply list_lookup_middle. }
  rewrite Hg in Hgd. injection Hgd as <-.
  split; [exact Hmap |].
  rewrite <- Hmap in Hdates.
  apply (Forall2_map_l (fun v r => parse_datetime v = Some (date r)) description) in Hdates.
  apply Forall_forall. intros r Hr.
  apply list_elem_of_lookup in Hr as [i Hi].
  destruct (Forall2_lookup_l _ _ _ _ _ Hdates Hi) as (r' & Hi' & Hp).
  congruence.
Qed.

End StandardFrame.

(** ** Further properties of the batch *)

Section BatchFacts.

Context {Amount : Type} {eq_dec : EqDecision Amount} {pd : Pandas Amount}
  {sorter : DateSort Amount}.
Variable str_lower : string -> string.

Lemma concat_frames_elem (filepaths : list string) (r : Row Amount) :
  r ∈ concat (successful_frames filepaths) <->
  exists p df, p ∈ filepaths /\ read_csv p = OK df /\ r ∈ df.
Proof.
  induction filepaths as [|p rest IH]; simpl.
  - split; [intros Hin; inversion Hin | intros (p & df & Hp & _); inversion Hp].
  - destruct (read_csv p) as [df|e] eqn:Hp; simpl.
    + rewrite elem_of_app, IH. split.
      * intros [Hr | (q & df' & Hq & Hok & Hr)].
        -- exists p, df. repeat split; [left | exact Hp | exact Hr].
        -- exists q, df'. repeat split; [now right | exact Hok | exact Hr].
      * intros (q & df' & Hq & Hok & Hr).
        apply elem_of_cons in Hq as [-> | Hq].
        -- left. congruence.
        -- right. eauto.
    + rewrite IH. split.
      * intros (q & df' & Hq & Hok & Hr). exists q, df'. repeat split; [now right | exact Hok | exact Hr].
      * intros (q & df' & Hq & Hok & Hr).
        apply elem_of_cons in Hq as [-> | Hq]; [congruence | eauto].
Qed.

Lemma drop_duplicates_seen_id (seen rows : list (Row Amount)) :
  NoDup rows -> (forall r, r ∈ rows -> r ∉ seen) -> drop_duplicates_seen seen rows = rows.
Proof.
  revert seen. induction rows as [|x rest IH]; intros seen Hnd Hseen; simpl; [reflexivity |].
  apply NoDup_cons in Hnd as [Hx Hnd].
  rewrite bool_decide_eq_false_2 by (apply Hseen; left).
  f_equal. apply IH; [exact Hnd |].
  intros r Hr. apply not_elem_of_cons. split.
  - intros ->. contradiction.
  - apply Hseen. now right.
Qed.

Lemma drop_duplicates_length (rows : list (Row Amount)) :
  (length (drop_duplicates rows) <= length rows)%nat /\
  (length (drop_duplicates rows) = length rows <-> NoDup rows).
Proof.
  pose proof (drop_duplicates_seen_sublist [] rows) as Hsub. fold (drop_duplicates rows) in Hsub.
  split; [now apply sublist_length |]. split.
  - intros Hlen. rewrite <- (submseteq_length_Permutation (drop_duplicates rows) rows).
    + apply drop_duplicates_NoDup.
    + now apply sublist_submseteq.
    + lia.
  - intros Hnd. unfold drop_duplicates. rewrite drop_duplicates_seen_id; auto.
    intros r _. apply not_elem_of_nil.
Qed.

(** X9. A run does not look at what the analyzer held before: the value
    returned (or the error raised) and the printed lines are the same from
    any earlier state, and after a successful run so is the stored table,
    which replaces the old one wholesale. *)
Theorem process_files_ignores_state (self self' : Analyzer Amount) (filepaths : list string) :
  result (process_files str_lower self filepaths) =
    result (process_files str_lower self' filepaths) /\
  printed (process_files str_lower self filepaths) =
    printed (process_files str_lower self' filepaths) /\
  (succeeds (result (process_files str_lower self filepaths)) = true ->
   after (process_files str_lower self filepaths) =
     after (process_files str_lower self' filepaths) /\
   data (after (process_files str_lower self filepaths)) =
     match result (process_files str_lower self filepaths) with
     | OK table => Some table
     | Raise _ => None
     end).
Proof.
  rewrite !process_files_spec.
  destruct (successful_frames filepaths); simpl; repeat split; try discriminate; reflexivity.
Qed.

(** X10. Which records are stored depends only on the set of paths: two
    path lists with the same members, in any order and with any
    repetitions, both fail or both succeed, and then store the same
    records, up to the order of the rows. *)
Theorem process_files_path_set (self1 self2 : Analyzer Amount) (paths1 paths2 : list string)
    (table1 table2 : list (Transaction Amount)) :
  (forall p, p ∈ paths1 <-> p ∈ paths2) ->
  succeeds (result (process_files str_lower self1 paths1)) =
    succeeds (result (process_files str_lower self2 paths2)) /\
  (result (process_files str_lower self1 paths1) = OK table1 ->
   result (process_files str_lower self2 paths2) = OK table2 ->
   table1 ≡ₚ table2).
Proof.
  intros Hset. split.
  - rewrite !process_files_spec.
    pose proof (successful_frames_nil paths1) as H1.
    pose proof (successful_frames_nil paths2) as H2.
    destruct (successful_frames paths1) eqn:E1, (successful_frames paths2) eqn:E2;
      simpl; try reflexivity; exfalso.
    + assert (Hn : l :: l0 = []); [| discriminate Hn].
      apply H2. intros p Hp. apply (proj1 H1 eq_refl). now apply Hset.
    + assert (Hn : l :: l0 = []); [| discriminate Hn].
      apply H1. intros p Hp. apply (proj1 H2 eq_refl). now apply Hset.
  - intros Hr1 Hr2. apply process_files_OK in Hr1, Hr2. subst table1 table2.
    unfold combine. apply fmap_Permutation.
    rewrite !sort_values_perm.
    apply NoDup_Permutation; try apply drop_duplicates_NoDup.
    intros r. rewrite !drop_duplicates_elem, !concat_frames_elem.
    split; intros (p & df & Hp & Hok & Hr); exists p, df; repeat split; auto; now apply Hset.
Qed.

(** X11. The stored table never has more rows than the files that were
    read, and it has as many exactly when no row is repeated, within a
    file or across files: a purchase listed twice is counted once. *)
Theorem process_files_row_count (self : Analyzer Amount) (filepaths : list string)
    (table : list (Transaction Amount)) :
  result (process_files str_lower self filepaths) = OK table ->
  (length table <= length (concat (successful_frames filepaths)))%nat /\
  (length table = length (concat (successful_frames filepaths)) <->
   NoDup (concat (successful_frames filepaths))).
Proof.
  intros Hr. apply process_files_OK in Hr. subst table.
  unfold combine. rewrite length_map, sort_values_perm.
  apply drop_duplicates_length.
Qed.

End BatchFacts.

(** ** Further properties of the report *)

From Stdlib Require OrderedTypeEx.

Lemma string_ltb_irrefl (a : string) : String.ltb a a = false.
Proof.
  unfold String.ltb. destruct (String.compare a a) eqn:Hc; try reflexivity.
  pose proof (String.compare_antisym a a) as Ha. rewrite Hc in Ha. discriminate Ha.
Qed.

Lemma string_ltb_trans (a b c : string) :
  String.ltb a b = true -> String.ltb b c = true -> String.ltb a c = true.
Proof.
  unfold String.ltb. intros Hab Hbc.
  destruct (String.compare a b) eqn:E1; try discriminate Hab.
  destruct (String.compare b c) eqn:E2; try discriminate Hbc.
  apply OrderedTypeEx.String_as_OT.cmp_lt in E1, E2.
  pose proof (OrderedTypeEx.String_as_OT.lt_trans _ _ _ E1 E2) as Hac.
  apply OrderedTypeEx.String_as_OT.cmp_lt in Hac.
  change (String.compare a c = Lt) in Hac. now rewrite Hac.
Qed.

Lemma string_ltb_total (a b : string) :
  String.ltb a b = false -> a <> b -> String.ltb b a = true.
Proof.
  unfold String.ltb. intros Hab Hne. rewrite (String.compare_antisym b a).
  destruct (String.compare a b) eqn:E; simpl; try reflexivity.
  - apply String.compare_eq_iff in E. contradiction.
  - discriminate Hab.
Qed.

Section GroupByFacts.

Context {Amount : Type} {num : Numeric Amount}.
Context {K : Type} `{EqDecision K} (key_lt : K -> K -> bool).

Hypothesis key_lt_irrefl : forall a, key_lt a a = false.
Hypothesis key_lt_trans :
  forall a b c, key_lt a b = true -> key_lt b c = true -> key_lt a c = true.
Hypothesis key_lt_total : forall a b, key_lt a b = false -> a <> b -> key_lt b a = true.

Lemma group_add_keys (P : K -> Prop) (k : K) (v : Amount) (groups : list (K * Amount)) :
  P k -> Forall (fun g => P (fst g)) groups ->
  Forall (fun g => P (fst g)) (group_add key_lt k v groups).
Proof.
  intros Hk. induction groups as [|[k' s] rest IH]; intros Hall; simpl.
  - constructor; [exact Hk | constructor].
  - apply Forall_cons in Hall as [Hk' Hrest].
    case_bool_decide; [| destruct (key_lt k k')].
    + constructor; assumption.
    + repeat constructor; assumption.
    + constructor; auto.
Qed.

Lemma keys_ascending_above (k k' : K) (s : Amount) (rest : list (K * Amount)) :
  key_lt k k' = true -> keys_ascending key_lt ((k', s) :: rest) ->
  Forall (fun g => key_lt k (fst g) = true) ((k', s) :: rest).
Proof.
  intros Hlt Hs. apply StronglySorted_inv in Hs as [_ Hall].
  constructor; [exact Hlt |].
  eapply Forall_impl; [exact Hall |]. simpl. intros g Hg. eapply key_lt_trans; eauto.
Qed.

Lemma group_lookup_above (k : K) (groups : list (K * Amount)) :
  Forall (fun g => key_lt k (fst g) = true) groups -> group_lookup k groups = None.
Proof.
  induction groups as [|[k' s] rest IH]; intros Hall; simpl; [reflexivity |].
  apply Forall_cons in Hall as [Hk Hrest]. simpl in Hk.
  rewrite bool_decide_eq_false_2; [auto |].
  intros ->. rewrite key_lt_irrefl in Hk. discriminate Hk.
Qed.

Lemma group_add_ascending (k : K) (v : Amount) (groups : list (K * Amount)) :
  keys_ascending key_lt groups -> keys_ascending key_lt (group_add key_lt k v groups).
Proof.
  unfold keys_ascending.
  induction groups as [|[k' s] rest IH]; intros Hs; simpl.
  - repeat constructor.
  - pose proof Hs as Hs'. apply StronglySorted_inv in Hs' as [Hrest Hall].
    case_bool_decide as Hk; [| destruct (key_lt k k') eqn:Hlt].
    + constructor; assumption.
    + constructor; [exact Hs |]. now apply keys_ascending_above.
    + constructor; [now apply IH |].
      apply (group_add_keys (fun x => key_lt k' x = true)); [| exact Hall].
      apply key_lt_total; [exact Hlt | exact Hk].
Qed.

Lemma group_add_lookup (k k' : K) (v : Amount) (groups : list (K * Amount)) :
  keys_ascending key_lt groups ->
  group_lookup k' (group_add key_lt k v groups) =
  if bool_decide (k = k') then Some (add (default zero (group_lookup k groups)) v)
  else group_lookup k' groups.
Proof.
  induction groups as [|[k0 s] rest IH]; intros Hs; simpl.
  - case_bool_decide; reflexivity.
  - pose proof Hs as Hs'. apply StronglySorted_inv in Hs' as [Hrest Hall].
    destruct (bool_decide (k = k0)) eqn:Hk0.
    + apply bool_decide_eq_true in Hk0. subst k0. simpl.
      rewrite (bool_decide_eq_true_2 (k = k)) by reflexivity.
      destruct (bool_decide (k = k')); reflexivity.
    + apply bool_decide_eq_false in Hk0.
      rewrite (bool_decide_eq_false_2 (k0 = k)) by congruence.
      destruct (key_lt k k0) eqn:Hlt; simpl.
      * rewrite (group_lookup_above k rest).
        -- destruct (bool_decide (k = k')); reflexivity.
        -- pose proof (keys_ascending_above k k0 s rest Hlt Hs) as Habove.
           now apply Forall_cons in Habove as [_ ?].
      * rewrite (IH Hrest).
        destruct (bool_decide (k0 = k')) eqn:Hk0'; [| reflexivity].
        apply bool_decide_eq_true in Hk0'. subst k'.
        now rewrite (bool_decide_eq_false_2 (k = k0)).
Qed.

Lemma groupby_sum_snoc (key : Transaction Amount -> K) (data : list (Transaction Amount))
    (t : Transaction Amount) :
  groupby_sum key_lt key (data ++ [t]) =
  group_add key_lt (key t) (t_amount t) (groupby_sum key_lt key data).
Proof. unfold groupby_sum. now rewrite fold_left_app. Qed.

Lemma groupby_sum_ascending (key : Transaction Amount -> K) (data : list (Transaction Amount)) :
  keys_ascending key_lt (groupby_sum key_lt key data).
Proof.
  induction data as [|t data IH] using rev_ind.
  - constructor.
  - rewrite groupby_sum_snoc. now apply group_add_ascending.
Qed.

Lemma series_sum_snoc (vs : list Amount) (v : Amount) :
  series_sum (vs ++ [v]) = add (series_sum vs) v.
Proof. unfold series_sum. now rewrite fold_left_app. Qed.

Lemma groupby_sum_lookup (key : Transaction Amount -> K) (data : list (Transaction Amount))
    (k : K) :
  group_lookup k (groupby_sum key_lt key data) =
  if bool_decide (Exists (fun t => key t = k) data)
  then Some (series_sum (group_amounts key k data)) else None.
Proof.
  induction data as [|t data IH] using rev_ind.
  - reflexivity.
  - rewrite groupby_sum_snoc, group_add_lookup by apply groupby_sum_ascending.
    unfold group_amounts. rewrite filter_app, map_app.
    destruct (decide (key t = k)) as [Hk | Hk].
    + subst k. rewrite (bool_decide_eq_true_2 (key t = key t)) by reflexivity. rewrite IH.
      rewrite (bool_decide_eq_true_2 (Exists _ (data ++ [t])))
        by (apply Exists_app; right; now constructor).
      rewrite filter_cons_True, filter_nil by reflexivity. simpl.
      rewrite series_sum_snoc. f_equal. f_equal.
      case_bool_decide as Hex; [reflexivity |].
      rewrite (filter_none (fun t0 => key t0 = key t) data); [reflexivity |].
      intros a Ha Hka. apply Hex, Exists_exists. eauto.
    + rewrite (bool_decide_eq_false_2 (key t = k)) by exact Hk.
      rewrite IH, filter_cons_False, filter_nil, app_nil_r by congruence.
      assert (Hiff : Exists (fun t0 => key t0 = k) (data ++ [t]) <->
                     Exists (fun t0 => key t0 = k) data).
      { rewrite Exists_app. split; [| tauto].
        intros [? | Ht]; [assumption |].
        inversion Ht as [? ? Hh | ? ? Hh]; [congruence | inversion Hh]. }
      destruct (decide (Exists (fun t0 => key t0 = k) data)) as [Hex | Hex].
      * rewrite !bool_decide_eq_true_2 by tauto. reflexivity.
      * rewrite !bool_decide_eq_false_2 by tauto. reflexivity.
Qed.

Lemma keys_ascending_lookup (groups : list (K * Amount)) (k : K) (s : Amount) :
  keys_ascending key_lt groups -> (k, s) ∈ groups <-> group_lookup k groups = Some s.
Proof.
  induction groups as [|[k0 s0] rest IH]; intros Hs; simpl.
  - split; [intros Hin; inversion Hin | discriminate].
  - pose proof Hs as Hs'. apply StronglySorted_inv in Hs' as [Hrest Hall].
    rewrite elem_of_cons, (IH Hrest). case_bool_decide as Hk.
    + subst k0. split.
      * intros [[= ->] | Hl]; [reflexivity |].
        rewrite group_lookup_above in Hl; [discriminate Hl | exact Hall].
      * intros [= ->]. now left.
    + split; [intros [[= -> ->] | Hl]; [contradiction | exact Hl] | now right].
Qed.

(** What [groupby(key)['amount'].sum()] holds: one entry per key that
    occurs, keys ascending, each sum added up in table order. *)
Lemma groupby_sum_entries (key : Transaction Amount -> K) (data : list (Transaction Amount)) :
  keys_ascending key_lt (groupby_sum key_lt key data) /\
  forall k s, (k, s) ∈ groupby_sum key_lt key data <->
              (exists t, t ∈ data /\ key t = k) /\
              s = series_sum (group_amounts key k data).
Proof.
  split; [apply groupby_sum_ascending |]. intros k s.
  rewrite (keys_ascending_lookup _ k s (groupby_sum_ascending key data)), groupby_sum_lookup.
  case_bool_decide as Hex; rewrite Exists_exists in Hex.
  - split; [intros [= <-]; auto | intros [_ ->]; reflexivity].
  - split; [discriminate | intros [Hk _]; contradiction].
Qed.

End GroupByFacts.

Section ReportFacts.

Context {Amount : Type} {num : Numeric Amount}.

(** X12. The monthly trend of a report has one entry for every calendar
    month in which a transaction falls and no other, the months strictly
    ascending; each entry is that month's amounts added up in table
    order. *)
Theorem monthly_trend_entries (rows : list (Transaction Amount)) :
  exists report,
    generate_insights (mkAnalyzer (Some rows)) = OK report /\
    keys_ascending Z.ltb (monthly_trend report) /\
    forall m s, (m, s) ∈ monthly_trend report <->
                (exists t, t ∈ rows /\ to_period_M (t_date t) = m) /\
                s = series_sum (group_amounts (fun t => to_period_M (t_date t)) m rows).
Proof.
  eexists. split; [reflexivity |]. simpl.
  apply (groupby_sum_entries Z.ltb).
  - apply Z.ltb_irrefl.
  - intros a b c. rewrite !Z.ltb_lt. lia.
  - intros a b. rewrite Z.ltb_ge, Z.ltb_lt. lia.
Qed.

(** X13. The spending-by-category map has one entry for every category
    that some transaction carries and no other, the names in ascending
    order; each entry is that category's amounts added up in table
    order. *)
Theorem spending_by_category_entries (rows : list (Transaction Amount)) :
  exists report,
    generate_insights (mkAnalyzer (Some rows)) = OK report /\
    keys_ascending String.ltb (spending_by_category report) /\
    forall c s, (c, s) ∈ spending_by_category report <->
                (exists t, t ∈ rows /\ t_category t = c) /\
                s = series_sum (group_amounts t_category c rows).
Proof.
  eexists. split; [reflexivity |]. simpl.
  apply (groupby_sum_entries String.ltb string_ltb_irrefl string_ltb_trans string_ltb_total).
Qed.

Section Ranking.

Context {K : Type}.

Hypothesis less_asym : forall a b : Amount, less a b = true -> less b a = false.
Hypothesis less_trans :
  forall a b c : Amount, less a b = true -> less b c = true -> less a c = true.

Lemma insert_desc_perm (x : K * Amount) (l : list (K * Amount)) :
  insert_desc x l ≡ₚ x :: l.
Proof.
  induction l as [|y l IH]; simpl; [reflexivity |].
  destruct (less (snd y) (snd x)); [reflexivity |].
  rewrite IH. apply Permutation_swap.
Qed.

Lemma insert_desc_descending (x : K * Amount) (l : list (K * Amount)) :
  sums_descending l -> sums_descending (insert_desc x l).
Proof.
  unfold sums_descending. induction l as [|y l IH]; intros Hs; simpl.
  - repeat constructor.
  - pose proof Hs as Hs'. apply StronglySorted_inv in Hs' as [Hl Hall].
    destruct (less (snd y) (snd x)) eqn:Hyx.
    + constructor; [exact Hs |]. constructor; [now apply less_asym |].
      eapply Forall_impl; [exact Hall |]. simpl. intros z Hyz.
      destruct (less (snd x) (snd z)) eqn:Hxz; [| reflexivity].
      rewrite (less_trans _ _ _ Hyx Hxz) in Hyz. discriminate Hyz.
    + constructor; [now apply IH |].
      rewrite insert_desc_perm. constructor; assumption.
Qed.

Lemma ranking_spec (groups acc : list (K * Amount)) :
  sums_descending acc ->
  fold_left (fun acc x => insert_desc x acc) groups acc ≡ₚ (groups ++ acc)%list /\
  sums_descending (fold_left (fun acc x => insert_desc x acc) groups acc).
Proof.
  revert acc. induction groups as [|x groups IH]; intros acc Hs; simpl; [auto |].
  destruct (IH (insert_desc x acc) (insert_desc_descending x acc Hs)) as [Hp Hd].
  split; [| exact Hd]. rewrite Hp, insert_desc_perm. symmetry. apply Permutation_middle.
Qed.

Lemma nlargest_spec (n : nat) (groups : list (K * Amount)) :
  exists ranked, ranked ≡ₚ groups /\ sums_descending ranked /\ nlargest n groups = take n ranked.
Proof.
  exists (fold_left (fun acc x => insert_desc x acc) groups []).
  destruct (ranking_spec groups []) as [Hp Hd]; [constructor |].
  rewrite app_nil_r in Hp. auto.
Qed.

End Ranking.

(** X14. When [less] is a strict order on the sums, the top merchants of a
    report are taken from the per-merchant sums: every listed merchant
    occurs in the table with the sum of its amounts, the list is in
    non-increasing order of the sums and has five entries (all merchants
    when there are fewer), and no merchant left out has a sum that a listed
    one is smaller than. *)
Theorem top_merchants_largest
    (less_asym : forall a b : Amount, less a b = true -> less b a = false)
    (less_trans : forall a b c : Amount, less a b = true -> less b c = true -> less a c = true)
    (rows : list (Transaction Amount)) :
  exists report,
    generate_insights (mkAnalyzer (Some rows)) = OK report /\
    sums_descending (top_merchants report) /\
    length (top_merchants report) =
      Nat.min 5 (length (groupby_sum String.ltb t_description rows)) /\
    (forall k s, (k, s) ∈ top_merchants report ->
                 (exists t, t ∈ rows /\ t_description t = k) /\
                 s = series_sum (group_amounts t_description k rows)) /\
    (forall x y, x ∈ top_merchants report ->
                 y ∈ groupby_sum String.ltb t_description rows ->
                 y ∉ top_merchants report -> less (snd x) (snd y) = false).
Proof.
  eexists. split; [reflexivity |]. simpl.
  destruct (nlargest_spec less_asym less_trans 5 (groupby_sum String.ltb t_description rows))
    as (ranked & Hperm & Hdesc & ->).
  pose proof (groupby_sum_entries String.ltb string_ltb_irrefl string_ltb_trans
                string_ltb_total t_description rows) as [_ Hentries].
  unfold sums_descending in *. rewrite <- (take_drop 5 ranked) in Hdesc.
  split; [| split; [| split]].
  - eapply StronglySorted_app_1_l; exact Hdesc.
  - rewrite length_take, (Permutation_length Hperm). reflexivity.
  - intros k s Hin. apply Hentries. rewrite <- Hperm, <- (take_drop 5 ranked).
    apply elem_of_app. now left.
  - intros x y Hx Hy Hny.
    apply (StronglySorted_app_1_elem_of _ _ _ x y Hdesc Hx).
    rewrite <- Hperm, <- (take_drop 5 ranked) in Hy.
    apply elem_of_app in Hy as [Hy | Hy]; [contradiction | exact Hy].
Qed.

(** X15. When the addition of the amount column is exact, the monthly sums
    of a report add up to its total spending.  The average monthly spending
    is the float64 mean of the monthly sums: NaN when the table has no
    rows, and otherwise, when the float64 additions of the mean are exact
    as well, the total as a float64 divided by the number of months that
    have a transaction; months without one do not count. *)
Theorem monthly_trend_adds_up
    (add_assoc : forall a b c : Amount, add a (add b c) = add (add a b) c)
    (add_comm : forall a b : Amount, add a b = add b a)
    (add_zero_l : forall a : Amount, add zero a = a)
    (self : Analyzer Amount) (report : Insights Amount) :
  generate_insights self = OK report ->
  series_sum (map snd (monthly_trend report)) = total_spending report /\
  avg_monthly_spending report = series_mean (map snd (monthly_trend report)) /\
  (monthly_trend report = [] -> avg_monthly_spending report = nan) /\
  (monthly_trend report <> [] ->
   float_sum (map snd (monthly_trend report)) =
     to_float (series_sum (map snd (monthly_trend report))) ->
   avg_monthly_spending report =
     (to_float (total_spending report) / float_of_nat (length (monthly_trend report)))%float).
Proof.
  unfold generate_insights. destruct (data self) as [rows|]; [| discriminate].
  intros [= <-]. cbn [monthly_trend avg_monthly_spending total_spending].
  pose proof (groupby_sum_total add_assoc add_comm add_zero_l Z.ltb
                (fun t => to_period_M (t_date t)) rows) as Htotal.
  split; [exact Htotal |]. split; [reflexivity |]. split.
  - intros ->. reflexivity.
  - intros Hne Hexact. rewrite <- Htotal, <- Hexact.
    destruct (groupby_sum Z.ltb (fun t => to_period_M (t_date t)) rows) as [|g groups];
      [contradiction |].
    unfold series_mean. cbn [map]. now rewrite !length_cons, length_map.
Qed.

(** X17. The figures show what the report says: [plot_spending_trends]
    raises the no-data error exactly when [generate_insights] does, and
    otherwise the line chart plots the report's monthly trend, each month
    written YYYY-MM, and the pie chart plots its spending by category. *)
Theorem plot_agrees_with_report (self : Analyzer Amount) :
  (plot_spending_trends self = Raise NoData <-> generate_insights self = Raise NoData) /\
  (forall report, generate_insights self = OK report ->
     plot_spending_trends self =
       OK (px_line (map (fun g => (period_str (fst g), snd g)) (monthly_trend report))
                   "date" "amount" "Monthly Spending Trend",
           px_pie (spending_by_category report)
                  "amount" "category" "Spending by Category")) /\
  (forall figures, plot_spending_trends self = OK figures ->
     exists report, generate_insights self = OK report).
Proof.
  unfold plot_spending_trends, generate_insights. destruct (data self) as [rows|].
  - split; [split; discriminate |]. split; [| eauto].
    intros report [= <-]. reflexivity.
  - split; [split; reflexivity |]. split; discriminate.
Qed.

End ReportFacts.

Section Pipeline.

Context {Amount : Type} {eq_dec : EqDecision Amount} {pd : Pandas Amount}
  {sorter : DateSort Amount} {num : Numeric Amount}.
Variable str_lower : string -> string.

(** X16. The calls made after [process_files]: when it returns a table,
    [generate_insights] and [plot_spending_trends] on the same analyzer
    return as well, and the total is the sum of the returned table's
    amounts.  When it raises the no-valid-files error, which it does before
    it assigns [self.data], they answer as they did before the run: with
    the no-data error on a new analyzer, with the report of the earlier
    table on a used one. *)
Theorem calls_after_process_files (self : Analyzer Amount) (filepaths : list string) :
  (forall table, result (process_files str_lower self filepaths) = OK table ->
     exists report figures,
       generate_insights (after (process_files str_lower self filepaths)) = OK report /\
       total_spending report = series_sum (map t_amount table) /\
       plot_spending_trends (after (process_files str_lower self filepaths)) = OK figures) /\
  (result (process_files str_lower self filepaths) = Raise NoValidFiles ->
     after (process_files str_lower self filepaths) = self /\
     generate_insights (after (process_files str_lower self filepaths)) =
       generate_insights self /\
     plot_spending_trends (after (process_files str_lower self filepaths)) =
       plot_spending_trends self) /\
  (result (process_files str_lower init filepaths) = Raise NoValidFiles ->
     generate_insights (after (process_files str_lower init filepaths)) = Raise NoData /\
     plot_spending_trends (after (process_files str_lower init filepaths)) = Raise NoData).
Proof.
  rewrite !process_files_spec.
  destruct (successful_frames filepaths) as [|df dfs]; simpl.
  - split; [discriminate |]. split; intros _; repeat split; reflexivity.
  - split; [| split; discriminate].
    intros table [= <-]. unfold generate_insights, plot_spending_trends. simpl. eauto.
Qed.

End Pipeline.

(** ** The amount scan and the printed lines *)

Section ScanFacts.

Context {Amount : Type} {eq_dec : EqDecision Amount} {pd : Pandas Amount}
  {sorter : DateSort Amount}.
Variable str_lower : string -> string.

(** X18. On a table of ASCII text the amount loop returns the label of the
    first column, left to right, that is numeric-typed or text-typed with
    one of the characters 0-9, dot, minus or dollar sign somewhere in every
    value; it finds none exactly when no column is such.  In particular a
    table with a numeric column always has an amount column. *)
Theorem amount_scan_first_passing_column (df : DataFrame Amount) :
  ascii_table df = true ->
  (forall col, find_amount_col df = Some col <->
     exists i s, df !! i = Some (col, s) /\ amount_like s /\
       forall j col' s', (j < i)%nat -> df !! j = Some (col', s') -> ~ amount_like s') /\
  (find_amount_col df = None <-> forall col s, (col, s) ∈ df -> ~ amount_like s) /\
  (forall col s, (col, s) ∈ df -> dtype s = float64 \/ dtype s = int64 ->
     exists col', find_amount_col df = Some col').
Proof.
  clear str_lower. intros _.
  assert (Hfalse : forall s : Series Amount, is_amount_col s = false <-> ~ amount_like s).
  { intros s. unfold amount_like. rewrite <- is_amount_col_spec.
    now destruct (is_amount_col s). }
  rewrite find_amount_col_scan. split; [| split].
  - intros col. rewrite find_col_Some.
    split; intros (i & s & Hi & Hs & Hbefore); exists i, s.
    + repeat split; [exact Hi | now apply is_amount_col_spec |].
      intros j c' s' Hj Hl. apply Hfalse. eauto.
    + repeat split; [exact Hi | now apply is_amount_col_spec |].
      intros j c' s' Hj Hl. apply Hfalse. eauto.
  - rewrite find_col_None. split; intros Hall c s Hin; apply Hfalse; eauto.
  - intros col s Hin Hnum.
    destruct (find_col is_amount_col df) as [c|] eqn:Hf; [eauto |].
    exfalso. rewrite find_col_None in Hf. specialize (Hf col s Hin).
    apply Hfalse in Hf. apply Hf. unfold amount_like. tauto.
Qed.

Lemma failures_raise (filepaths : list string) :
  Forall (fun line => fst line ∈ filepaths /\ read_csv (fst line) = Raise (snd line))
         (failures filepaths).
Proof.
  induction filepaths as [|p rest IH]; simpl; [constructor |].
  destruct (read_csv p) as [df|e] eqn:Hp.
  - eapply Forall_impl; [exact IH |]. simpl. intros line [Hin Hr]. split; [now right | exact Hr].
  - constructor; [split; [left | exact Hp] |].
    eapply Forall_impl; [exact IH |]. simpl. intros line [Hin Hr]. split; [now right | exact Hr].
Qed.

Lemma frames_and_failures (filepaths : list string) :
  (length (successful_frames filepaths) + length (failures filepaths))%nat = length filepaths.
Proof.
  induction filepaths as [|p rest IH]; simpl; [reflexivity |].
  destruct (read_csv p); simpl; lia.
Qed.

(** X19. Every line [process_files] prints names a path of the argument
    list together with the exception [read_csv] raised on it, and every
    path is accounted for: the frames read and the lines printed are as
    many as the paths. *)
Theorem process_files_printed_lines (self : Analyzer Amount) (filepaths : list string) :
  Forall (fun line => fst line ∈ filepaths /\ read_csv (fst line) = Raise (snd line))
         (printed (process_files str_lower self filepaths)) /\
  (length (successful_frames filepaths) +
   length (printed (process_files str_lower self filepaths)))%nat = length filepaths.
Proof.
  rewrite process_files_spec.
  assert (Hp : printed (match successful_frames filepaths with
                        | [] => mkOutcome (failures filepaths) (Raise NoValidFiles) self
                        | dfs => mkOutcome (failures filepaths) (OK (combine str_lower dfs))
                                           (mkAnalyzer (Some (combine str_lower dfs)))
                        end) = failures filepaths)
    by (now destruct (successful_frames filepaths)).
  rewrite Hp. split; [apply failures_raise | apply frames_and_failures].
Qed.

End ScanFacts.

(** ** The further properties on the sample files *)

(** January 2024 is written 2024-01, December 1969 is written 1969-12. *)
Example period_str_samples :
  period_str (to_period_M jan05) = "2024-01" /\
  period_str (to_period_M feb01) = "2024-02" /\
  period_str (to_period_M (-1)%Z) = "1969-12".
Proof. repeat split; vm_compute; reflexivity. Qed.

(** [bank1] has two rows and [read_csv] returns two rows. *)
Lemma standardize_rows_witness :
  NoDup (map fst bank1) /\ row_count 2 bank1 /\
  standardize (pd := disk) bank1 =
    OK [mkRow jan05 "Trader Joes" 45%Z; mkRow jan10 "Shell Gas" 30%Z] /\
  length [mkRow jan05 "Trader Joes" 45%Z; mkRow jan10 "Shell Gas" 30%Z] = 2%nat.
Proof.
  assert (Hnd : NoDup (map fst bank1)) by (apply (bool_decide_unpack _); vm_compute; exact I).
  assert (Hn : row_count 2 bank1) by (repeat constructor).
  assert (Hok : standardize (pd := disk) bank1 =
                OK [mkRow jan05 "Trader Joes" 45%Z; mkRow jan10 "Shell Gas" 30%Z])
    by (vm_compute; reflexivity).
  split; [exact Hnd |]. split; [exact Hn |]. split; [exact Hok |].
  exact (proj1 (standardize_rows (pd := disk) bank1 2 _ Hnd Hn Hok)).
Defined.

(** With the amount column first and the description column last, the
    descriptions returned are the date texts. *)
Lemma description_is_date_text_witness :
  amount_first =
    ([("Amount", Int64 [45; 30]%Z)] ++
     ("Date", Object ["2024-01-05"; "2024-01-10"]) ::
     [("Description", Object ["Trader Joes"; "Shell Gas"])])%list /\
  standardize (pd := disk) amount_first =
    OK [mkRow jan05 "2024-01-05" 45%Z; mkRow jan10 "2024-01-10" 30%Z] /\
  map description [mkRow jan05 "2024-01-05" 45%Z; mkRow jan10 "2024-01-10" 30%Z] =
    ["2024-01-05"; "2024-01-10"].
Proof.
  split; [reflexivity |].
  assert (Hok : standardize (pd := disk) amount_first =
                OK [mkRow jan05 "2024-01-05" 45%Z; mkRow jan10 "2024-01-10" 30%Z])
    by (vm_compute; reflexivity).
  split; [exact Hok |].
  refine (proj1 (description_is_date_text (pd := disk)
                   [("Amount", Int64 [45; 30]%Z)]
                   [("Description", Object ["Trader Joes"; "Shell Gas"])]
                   "Date" ["2024-01-05"; "2024-01-10"] 2 _ _ _ _ _ Hok)).
  - apply (bool_decide_unpack _). vm_compute. exact I.
  - repeat constructor.
  - repeat constructor. discriminate.
  - vm_compute. reflexivity.
Defined.

(** The two bank files in the other order, one of them twice, store the
    same records. *)
Lemma process_files_path_set_witness :
  (forall p, p ∈ ["bank1.csv"; "bank2.csv"] <-> p ∈ ["bank2.csv"; "bank1.csv"; "bank1.csv"]) /\
  result (process_files (pd := disk) (sorter := numpy_quicksort) Str.lower init
            ["bank2.csv"; "bank1.csv"; "bank1.csv"]) = OK ledger /\
  ledger ≡ₚ ledger.
Proof.
  assert (Hset : forall p, p ∈ ["bank1.csv"; "bank2.csv"] <->
                           p ∈ ["bank2.csv"; "bank1.csv"; "bank1.csv"]).
  { intros p. rewrite !elem_of_cons, !elem_of_nil. tauto. }
  assert (H1 : result (process_files (pd := disk) (sorter := numpy_quicksort) Str.lower init
                         ["bank1.csv"; "bank2.csv"]) = OK ledger)
    by (vm_compute; reflexivity).
  assert (H2 : result (process_files (pd := disk) (sorter := numpy_quicksort) Str.lower init
                         ["bank2.csv"; "bank1.csv"; "bank1.csv"]) = OK ledger)
    by (vm_compute; reflexivity).
  split; [exact Hset |]. split; [exact H2 |].
  exact (proj2 (process_files_path_set (pd := disk) (sorter := numpy_quicksort) Str.lower
                  init init _ _ ledger ledger Hset) H1 H2).
Defined.

(** The two bank files hold four rows, one of them twice: three are stored. *)
Lemma process_files_row_count_witness :
  result (process_files (pd := disk) (sorter := numpy_quicksort) Str.lower init
            ["bank1.csv"; "bank2.csv"]) = OK ledger /\
  length (concat (successful_frames (pd := disk) ["bank1.csv"; "bank2.csv"])) = 4%nat /\
  (length ledger <= length (concat (successful_frames (pd := disk) ["bank1.csv"; "bank2.csv"])))%nat.
Proof.
  assert (H1 : result (process_files (pd := disk) (sorter := numpy_quicksort) Str.lower init
                         ["bank1.csv"; "bank2.csv"]) = OK ledger)
    by (vm_compute; reflexivity).
  split; [exact H1 |]. split; [vm_compute; reflexivity |].
  exact (proj1 (process_files_row_count (pd := disk) (sorter := numpy_quicksort) Str.lower
                  init _ ledger H1)).
Defined.

Lemma Z_less_asym (a b : Z) : (a <? b)%Z = true -> (b <? a)%Z = false.
Proof. rewrite Z.ltb_lt, Z.ltb_ge. lia. Qed.

Lemma Z_less_trans (a b c : Z) : (a <? b)%Z = true -> (b <? c)%Z = true -> (a <? c)%Z = true.
Proof. rewrite !Z.ltb_lt. lia. Qed.

(** The three merchants of [ledger], largest sum first. *)
Lemma top_merchants_largest_witness :
  exists report,
    generate_insights (num := Z_numeric) (mkAnalyzer (Some ledger)) = OK report /\
    top_merchants report = [("Trader Joes", 45%Z); ("Shell Gas", 30%Z); ("Netflix", 16%Z)] /\
    sums_descending (num := Z_numeric) (top_merchants report).
Proof.
  destruct (top_merchants_largest (num := Z_numeric) Z_less_asym Z_less_trans ledger)
    as (report & Hgen & Hdesc & _).
  exists report. split; [exact Hgen |]. split; [| exact Hdesc].
  vm_compute in Hgen. injection Hgen as <-. reflexivity.
Defined.

(** [ledger] spans two months: 75 and 16 add up to 91, the average is 45.5. *)
Lemma monthly_trend_adds_up_witness :
  exists report,
    generate_insights (num := Z_numeric) (mkAnalyzer (Some ledger)) = OK report /\
    monthly_trend report = [(648%Z, 75%Z); (649%Z, 16%Z)] /\
    total_spending report = 91%Z /\
    series_sum (num := Z_numeric) (map snd (monthly_trend report)) = total_spending report /\
    avg_monthly_spending report = 45.5%float.
Proof.
  eexists. split; [reflexivity |]. split; [vm_compute; reflexivity |].
  split; [vm_compute; reflexivity |].
  destruct (monthly_trend_adds_up (num := Z_numeric) Z.add_assoc Z.add_comm Z.add_0_l
              (mkAnalyzer (Some ledger)) _ eq_refl) as (Hsum & _ & _ & Havg).
  split; [exact Hsum |]. rewrite Havg.
  - vm_compute. reflexivity.
  - vm_compute. discriminate.
  - vm_compute. reflexivity.
Defined.

(** [bank1] holds ASCII text; its first text column has no value with a
    character of the class, and the numeric column after it is taken. *)
Lemma amount_scan_first_passing_column_witness :
  ascii_table bank1 = true /\
  find_amount_col bank1 = Some "Amount" /\
  exists i s, bank1 !! i = Some ("Amount", s) /\ amount_like s /\
    forall j col' s', (j < i)%nat -> bank1 !! j = Some (col', s') -> ~ amount_like s'.
Proof.
  assert (Hascii : ascii_table bank1 = true) by (vm_compute; reflexivity).
  assert (Hcol : find_amount_col bank1 = Some "Amount") by (vm_compute; reflexivity).
  split; [exact Hascii |]. split; [exact Hcol |].
  exact (proj1 (proj1 (amount_scan_first_passing_column bank1 Hascii) "Amount") Hcol).
Defined.
